(** * Location recommendation service: query building, search-index client
      and HTTP handlers

    A shallow embedding of [internal/models/models.go],
    [internal/storage/elasticsearch.go] and [internal/handlers/handlers.go],
    followed by the properties of the recommendation path and of the point
    lookup.

    Conventions of the embedding.
    - Go [string] is [string], a sequence of bytes; Go [int] is [Z] (no
      arithmetic is performed on it by the code below, so no wrap-around
      arises); Go [float64] is the kernel's binary64 [float].
    - A Go slice is a [list], which stands for its elements: a [nil] slice
      and an empty slice are both [[]].
    - A [time.Time] is the instant it denotes, read in UTC.
    - [map[string]interface{}] is a [gmap string Value]; [Value] plays the
      role of [interface{}] and of a parsed JSON document.  The textual
      encoding of JSON is the business of encoding/json and of the engine and
      is not modelled: what travels is the tree.
    - A pointer argument that the callee writes through ([*RecommendRequest])
      is passed by value and handed back, updated, with the result.
    - Calls to the search engine and log lines are events of an explicit
      world, threaded by a state monad; the engine and net/http's request
      constructor are a [Network], which the client code is generic in.
    - Contexts, deadlines and cancellation are not modelled. *)

From Stdlib Require Import ZArith Ascii Floats.PrimFloat DecimalString.
From Stdlib Require Floats.SpecFloat Floats.FloatOps.
From stdpp Require Import gmap strings list fin_maps sorting.

Set Warnings "-register-all,-clear-no-such-hyp".
Open Scope Z_scope.

(** ** Go values *)

(** [time.Time], as the instant it denotes (nanoseconds since the Unix
    epoch); the monotonic clock reading and the zone name, which JSON does
    not carry, are not part of the model. *)
Definition Time : Type := Z.

(** The zero [time.Time]: January 1, year 1, 00:00:00 UTC. *)
Definition zeroTime : Time := -62135596800000000000.

(** [interface{}] / a JSON tree.  [VInt] and [VFloat] are JSON numbers (a Go
    [int] and a Go [float64] before encoding).  [VTime t] is the JSON string
    that is the RFC 3339 text of [t], the leaf a [time.Time] marshals to and
    is parsed from; any other JSON string is a [VString]. *)
Inductive Value :=
| VNull
| VBool (b : bool)
| VInt (n : Z)
| VFloat (f : float)
| VString (s : string)
| VTime (t : Time)
| VList (l : list Value)
| VMap (m : gmap string Value).

(** [v[k]] on a value that is a map. *)
Definition field (k : string) (v : Value) : option Value :=
  match v with
  | VMap m => m !! k
  | _ => None
  end.

Definition asList (v : Value) : option (list Value) :=
  match v with
  | VList l => Some l
  | _ => None
  end.

(** ** Errors

    [fmt.Errorf] without [%w] yields a plain message; with [%w] it yields an
    error that carries the formatted message and the wrapped cause. *)
Inductive error :=
| errorString (s : string)
| wrapError (msg : string) (err : error).

(** [err.Error()] *)
Definition Error (e : error) : string :=
  match e with
  | errorString s => s
  | wrapError msg _ => msg
  end.

(** [fmt.Errorf(prefix + "%w", err)] *)
Definition Errorf_w (prefix : string) (err : error) : error :=
  wrapError (prefix +:+ Error err) err.

(** A Go [(T, error)] result. *)
Inductive result (A : Type) :=
| Ok (a : A)
| Err (e : error).
Arguments Ok {A} a.
Arguments Err {A} e.

(** [%d] *)
Definition fmt_d (n : Z) : string := NilZero.string_of_int (Z.to_int n).

(** ** models.go *)
Module models.

Record GeoPoint := {
  Lat : float;
  Lon : float
}.

Record Demographics := {
  AgeGroup : string;
  AverageIncome : float;
  Interests : list string;
  PopulationDensity : float
}.

Record Location := {
  ID : string;
  Name : string;
  Address : string;
  Coordinates : GeoPoint;
  Region : string;
  City : string;
  Description : string;
  BusinessTypesSuitable : list string;
  TrafficScore : float;
  CompetitionDensity : float;
  Demographics_ : Demographics;
  Embedding : list float;
  CreatedAt : Time;
  UpdatedAt : Time;
  Score : float
}.

Record RecommendRequest := {
  reqRegion : string;
  reqCity : string;
  reqBusinessType : string;
  reqLimit : Z
}.

Record RecommendResponse := {
  Locations : list Location;
  Total : Z
}.

(** [req.Limit = n] *)
Definition setLimit (req : RecommendRequest) (n : Z) : RecommendRequest :=
  {| reqRegion := reqRegion req;
     reqCity := reqCity req;
     reqBusinessType := reqBusinessType req;
     reqLimit := n |}.

(** [location.Score = s] *)
Definition setScore (l : Location) (s : float) : Location :=
  {| ID := ID l; Name := Name l; Address := Address l;
     Coordinates := Coordinates l; Region := Region l; City := City l;
     Description := Description l;
     BusinessTypesSuitable := BusinessTypesSuitable l;
     TrafficScore := TrafficScore l;
     CompetitionDensity := CompetitionDensity l;
     Demographics_ := Demographics_ l; Embedding := Embedding l;
     CreatedAt := CreatedAt l; UpdatedAt := UpdatedAt l;
     Score := s |}.

(** The reference entities.  The type of regions is [Region_], its name
    being taken by the field of [Location]; the fields of the two records
    carry a prefix for the same reason. *)
Record BusinessType := {
  btID : Z;
  btName : string;
  btDescription : string;
  btCreatedAt : Time;
  btUpdatedAt : Time
}.

(** [ParentRegionID] is a [*int]: [None] is [nil]. *)
Record Region_ := {
  rID : Z;
  rName : string;
  rParentRegionID : option Z;
  rCreatedAt : Time;
  rUpdatedAt : Time
}.

End models.
Export models.

(** ** encoding/json on the model types

    Marshalling follows the struct tags of models.go.  It fails on a float
    that is NaN or infinite and on a time whose year is outside 0..9999, as
    encoding/json does; the first failure in field order is the one
    reported.  A string is written as it is, which is what encoding/json
    does with valid UTF-8 ([validUTF8] below); it replaces every byte that is
    not part of a valid encoding by U+FFFD, so a property that depends on
    the text of the strings written carries their validity as a hypothesis
    ([validStrings]). *)

#[global] Instance result_ret : MRet result := λ A a, Ok a.
#[global] Instance result_bind : MBind result := λ A B f m,
  match m with
  | Ok a => f a
  | Err e => Err e
  end.

Definition finite (f : float) : bool := negb (is_nan f || is_infinity f).

(** [strconv.FormatFloat] of a float that is not finite *)
Definition formatSpecial (f : float) : string :=
  if is_nan f then "NaN" else if PrimFloat.ltb 0 f then "+Inf" else "-Inf".

Definition marshalFloat (f : float) : result Value :=
  if finite f then Ok (VFloat f)
  else Err (errorString ("json: unsupported value: " +:+ formatSpecial f)).

(** Instants of the years 0..9999 (UTC). *)
Definition timeInRange (t : Time) : bool :=
  bool_decide (-62167219200000000000 ≤ t < 253402300800000000000).

Definition marshalTime (t : Time) : result Value :=
  if timeInRange t then Ok (VTime t)
  else Err (errorString
    "json: error calling MarshalJSON for type time.Time: Time.MarshalJSON: year outside of range [0,9999]").

Fixpoint marshalFloats (l : list float) : result (list Value) :=
  match l with
  | [] => Ok []
  | f :: l => v ← marshalFloat f; vs ← marshalFloats l; Ok (v :: vs)
  end.

Definition marshalStrings (l : list string) : Value := VList (VString <$> l).

Definition marshalGeoPoint (g : GeoPoint) : result Value :=
  lat ← marshalFloat (Lat g);
  lon ← marshalFloat (Lon g);
  Ok (VMap (<["lat" := lat]> (<["lon" := lon]> ∅))).

Definition marshalDemographics (d : Demographics) : result Value :=
  income ← marshalFloat (AverageIncome d);
  density ← marshalFloat (PopulationDensity d);
  Ok (VMap (<["age_group" := VString (AgeGroup d)]>
           (<["average_income" := income]>
           (<["interests" := marshalStrings (Interests d)]>
           (<["population_density" := density]> ∅))))).

(** [json.Marshal(location)].  [embedding] is left out when the slice is
    empty and [score] when the score is zero ([omitempty]). *)
Definition marshalLocation (l : Location) : result Value :=
  coordinates ← marshalGeoPoint (Coordinates l);
  traffic ← marshalFloat (TrafficScore l);
  competition ← marshalFloat (CompetitionDensity l);
  demographics ← marshalDemographics (Demographics_ l);
  embedding ← marshalFloats (Embedding l);
  created ← marshalTime (CreatedAt l);
  updated ← marshalTime (UpdatedAt l);
  score ← marshalFloat (Score l);
  let m : gmap string Value :=
    <["id" := VString (ID l)]>
    (<["name" := VString (Name l)]>
    (<["address" := VString (Address l)]>
    (<["coordinates" := coordinates]>
    (<["region" := VString (Region l)]>
    (<["city" := VString (City l)]>
    (<["description" := VString (Description l)]>
    (<["business_types_suitable" := marshalStrings (BusinessTypesSuitable l)]>
    (<["traffic_score" := traffic]>
    (<["competition_density" := competition]>
    (<["demographics" := demographics]>
    (<["created_at" := created]>
    (<["updated_at" := updated]> ∅)))))))))))) in
  let m := if decide (Embedding l = []) then m else <["embedding" := VList embedding]> m in
  let m := if PrimFloat.eqb (Score l) 0 then m else <["score" := score]> m in
  Ok (VMap m).

Fixpoint marshalLocations (ls : list Location) : result (list Value) :=
  match ls with
  | [] => Ok []
  | l :: ls => v ← marshalLocation l; vs ← marshalLocations ls; Ok (v :: vs)
  end.

Definition marshalRecommendResponse (r : RecommendResponse) : result Value :=
  locations ← marshalLocations (Locations r);
  Ok (VMap (<["locations" := VList locations]> (<["total" := VInt (Total r)]> ∅))).

(** [json.Marshal] of the reference entities.  [parent_region_id] is left
    out when the pointer is [nil] ([omitempty]); a pointer to 0 is not. *)
Definition marshalBusinessType (bt : BusinessType) : result Value :=
  created ← marshalTime (btCreatedAt bt);
  updated ← marshalTime (btUpdatedAt bt);
  Ok (VMap (<["id" := VInt (btID bt)]>
           (<["name" := VString (btName bt)]>
           (<["description" := VString (btDescription bt)]>
           (<["created_at" := created]>
           (<["updated_at" := updated]> ∅)))))).

Definition marshalRegion (r : Region_) : result Value :=
  created ← marshalTime (rCreatedAt r);
  updated ← marshalTime (rUpdatedAt r);
  let m : gmap string Value :=
    <["id" := VInt (rID r)]>
    (<["name" := VString (rName r)]>
    (<["created_at" := created]>
    (<["updated_at" := updated]> ∅))) in
  let m := match rParentRegionID r with
           | None => m
           | Some parent => <["parent_region_id" := VInt parent]> m
           end in
  Ok (VMap m).

(** A slice of values, element by element; the first failure is the one
    reported. *)
Fixpoint marshalSlice {A} (marshal : A → result Value) (l : list A) : result (list Value) :=
  match l with
  | [] => Ok []
  | a :: l => v ← marshal a; vs ← marshalSlice marshal l; Ok (v :: vs)
  end.

(** The locations [json.Marshal] accepts: every float finite, both times in
    range. *)
Definition encodableGeoPoint (g : GeoPoint) : bool :=
  finite (Lat g) && finite (Lon g).

Definition encodableDemographics (d : Demographics) : bool :=
  finite (AverageIncome d) && finite (PopulationDensity d).

Definition encodable (l : Location) : bool :=
  encodableGeoPoint (Coordinates l)
  && finite (TrafficScore l)
  && finite (CompetitionDensity l)
  && encodableDemographics (Demographics_ l)
  && forallb finite (Embedding l)
  && timeInRange (CreatedAt l)
  && timeInRange (UpdatedAt l)
  && finite (Score l).

(** The strings encoding/json writes unchanged: those that are valid UTF-8.
    [validUTF8] is [utf8.ValidString]: one byte below 0x80; two bytes from
    0xC2..0xDF; three from 0xE0..0xEF, without overlong forms (after 0xE0 the
    second byte is at least 0xA0) and surrogates (after 0xED at most 0x9F);
    four from 0xF0..0xF4, without overlong forms (after 0xF0 at least 0x90)
    and code points above U+10FFFF (after 0xF4 at most 0x8F); every other
    byte after the first in 0x80..0xBF. *)
Definition byteOf (a : ascii) : Z := Z.of_N (Ascii.N_of_ascii a).

Definition between (lo hi : Z) (a : ascii) : bool :=
  (lo <=? byteOf a) && (byteOf a <=? hi).

Fixpoint validUTF8 (s : string) : bool :=
  match s with
  | EmptyString => true
  | String a s1 =>
      if byteOf a <? 0x80 then validUTF8 s1
      else if byteOf a <? 0xC2 then false
      else if byteOf a <? 0xE0 then
        match s1 with
        | String b s2 => between 0x80 0xBF b && validUTF8 s2
        | _ => false
        end
      else if byteOf a <? 0xF0 then
        match s1 with
        | String b (String c s3) =>
            between (if byteOf a =? 0xE0 then 0xA0 else 0x80)
                    (if byteOf a =? 0xED then 0x9F else 0xBF) b
            && between 0x80 0xBF c && validUTF8 s3
        | _ => false
        end
      else if byteOf a <? 0xF5 then
        match s1 with
        | String b (String c (String d s4)) =>
            between (if byteOf a =? 0xF0 then 0x90 else 0x80)
                    (if byteOf a =? 0xF4 then 0x8F else 0xBF) b
            && between 0x80 0xBF c && between 0x80 0xBF d && validUTF8 s4
        | _ => false
        end
      else false
  end.

(** Every string of a location is valid UTF-8. *)
Definition validStrings (l : Location) : bool :=
  validUTF8 (ID l)
  && validUTF8 (Name l)
  && validUTF8 (Address l)
  && validUTF8 (Region l)
  && validUTF8 (City l)
  && validUTF8 (Description l)
  && forallb validUTF8 (BusinessTypesSuitable l)
  && validUTF8 (AgeGroup (Demographics_ l))
  && forallb validUTF8 (Interests (Demographics_ l)).

(** Unmarshalling into a fresh (zero) value.  A key that is absent leaves
    the field at its zero value, and so does [null]; a value of the wrong
    JSON type is an error.  Keys are matched by their exact name, the names
    marshalling writes (encoding/json also takes a key that differs from
    the name in case only).  Decoders return [None] on error. *)

(** The nearest float64 of an integer literal. *)
Definition float_of_Z (n : Z) : float :=
  FloatOps.SF2Prim (SpecFloat.binary_normalize FloatOps.prec FloatOps.emax n 0 false).

Definition decodeString (v : Value) : option string :=
  match v with
  | VNull => Some ""
  | VString s => Some s
  | _ => None
  end.

Definition decodeFloat (v : Value) : option float :=
  match v with
  | VNull => Some 0%float
  | VFloat f => if finite f then Some f else None
  | VInt n => let f := float_of_Z n in if finite f then Some f else None
  | _ => None
  end.

Definition decodeInt (v : Value) : option Z :=
  match v with
  | VNull => Some 0
  | VInt n => if bool_decide (- 2 ^ 63 ≤ n < 2 ^ 63) then Some n else None
  | _ => None
  end.

Definition decodeBool (v : Value) : option bool :=
  match v with
  | VNull => Some false
  | VBool b => Some b
  | _ => None
  end.

Definition decodeTime (v : Value) : option Time :=
  match v with
  | VNull => Some zeroTime
  | VTime t => if timeInRange t then Some t else None
  | _ => None
  end.

Definition decodeList {A} (d : Value → option A) (v : Value) : option (list A) :=
  match v with
  | VNull => Some []
  | VList l => mapM d l
  | _ => None
  end.

(** A struct field: the decoder applied to the value under key [k], the zero
    value [z] when the key is absent. *)
Definition decodeField {A} (d : Value → option A) (z : A) (k : string)
    (m : gmap string Value) : option A :=
  match m !! k with
  | None => Some z
  | Some v => d v
  end.

Definition decodeStruct {A} (d : gmap string Value → option A) (z : A) (v : Value) : option A :=
  match v with
  | VNull => Some z
  | VMap m => d m
  | _ => None
  end.

Definition zeroGeoPoint : GeoPoint := {| Lat := 0; Lon := 0 |}.

Definition zeroDemographics : Demographics :=
  {| AgeGroup := ""; AverageIncome := 0; Interests := []; PopulationDensity := 0 |}.

Definition zeroLocation : Location :=
  {| ID := ""; Name := ""; Address := ""; Coordinates := zeroGeoPoint;
     Region := ""; City := ""; Description := ""; BusinessTypesSuitable := [];
     TrafficScore := 0; CompetitionDensity := 0; Demographics_ := zeroDemographics;
     Embedding := []; CreatedAt := zeroTime; UpdatedAt := zeroTime; Score := 0 |}.

Definition decodeGeoPoint : Value → option GeoPoint :=
  decodeStruct (λ m,
    lat ← decodeField decodeFloat 0%float "lat" m;
    lon ← decodeField decodeFloat 0%float "lon" m;
    Some {| Lat := lat; Lon := lon |}) zeroGeoPoint.

Definition decodeDemographics : Value → option Demographics :=
  decodeStruct (λ m,
    age ← decodeField decodeString "" "age_group" m;
    income ← decodeField decodeFloat 0%float "average_income" m;
    interests ← decodeField (decodeList decodeString) [] "interests" m;
    density ← decodeField decodeFloat 0%float "population_density" m;
    Some {| AgeGroup := age; AverageIncome := income; Interests := interests;
            PopulationDensity := density |}) zeroDemographics.

Definition decodeLocation : Value → option Location :=
  decodeStruct (λ m,
    id ← decodeField decodeString "" "id" m;
    name ← decodeField decodeString "" "name" m;
    address ← decodeField decodeString "" "address" m;
    coordinates ← decodeField decodeGeoPoint zeroGeoPoint "coordinates" m;
    region ← decodeField decodeString "" "region" m;
    city ← decodeField decodeString "" "city" m;
    description ← decodeField decodeString "" "description" m;
    types ← decodeField (decodeList decodeString) [] "business_types_suitable" m;
    traffic ← decodeField decodeFloat 0%float "traffic_score" m;
    competition ← decodeField decodeFloat 0%float "competition_density" m;
    demographics ← decodeField decodeDemographics zeroDemographics "demographics" m;
    embedding ← decodeField (decodeList decodeFloat) [] "embedding" m;
    created ← decodeField decodeTime zeroTime "created_at" m;
    updated ← decodeField decodeTime zeroTime "updated_at" m;
    score ← decodeField decodeFloat 0%float "score" m;
    Some {| ID := id; Name := name; Address := address; Coordinates := coordinates;
            Region := region; City := city; Description := description;
            BusinessTypesSuitable := types; TrafficScore := traffic;
            CompetitionDensity := competition; Demographics_ := demographics;
            Embedding := embedding; CreatedAt := created; UpdatedAt := updated;
            Score := score |}) zeroLocation.

Definition zeroRecommendRequest : RecommendRequest :=
  {| reqRegion := ""; reqCity := ""; reqBusinessType := ""; reqLimit := 0 |}.

Definition decodeRecommendRequest : Value → option RecommendRequest :=
  decodeStruct (λ m,
    region ← decodeField decodeString "" "region" m;
    city ← decodeField decodeString "" "city" m;
    business ← decodeField decodeString "" "business_type" m;
    limit ← decodeField decodeInt 0 "limit" m;
    Some {| reqRegion := region; reqCity := city; reqBusinessType := business;
            reqLimit := limit |}) zeroRecommendRequest.

(** ** The network

    What the service does to the outside: requests to the search engine and
    log lines.  The engine is any state machine that answers requests. *)

(** A response body: its text, and the JSON value the text denotes, if it
    denotes one. *)
Record Body := {
  Raw : string;
  Json : option Value
}.

(** A request to the engine: one issued through the official client
    ([esapi.IndexRequest.Do]) or one issued directly ([http.Client.Do]). *)
Inductive Call :=
| EsIndex (Index DocumentID : string) (body : Value) (Refresh : string)
| HttpDo (method url contentType : string) (body : option Value).

(** The outcome of a request: a transport error, or a response. *)
Inductive HttpResult :=
| Failed (err : error)
| Responded (StatusCode : Z) (body : Body).

Inductive Event :=
| Called (c : Call)
| Logged (line : string).

(** [serve] is the engine; [newRequestError] is [http.NewRequestWithContext]
    refusing a method and URL. *)
Class Network (S : Type) := {
  serve : S → Call → HttpResult * S;
  newRequestError : string → string → option error
}.

Record World (S : Type) := {
  engine : S;
  trace : list Event
}.
Arguments engine {S} w.
Arguments trace {S} w.

Definition IO (S A : Type) : Type := World S → A * World S.

#[global] Instance io_ret {S} : MRet (IO S) := λ A a w, (a, w).
#[global] Instance io_bind {S} : MBind (IO S) := λ A B f m w,
  let '(a, w') := m w in f a w'.

Definition doCall {S} {net : Network S} (c : Call) : IO S HttpResult := λ w,
  let '(r, s') := serve (engine w) c in
  (r, {| engine := s'; trace := trace w ++ [Called c] |}).

(** [log.Printf] *)
Definition logPrintf {S} (line : string) : IO S unit := λ w,
  (tt, {| engine := engine w; trace := trace w ++ [Logged line] |}).

(** [json.NewDecoder(body).Decode(&v)] for a fresh [v]; the messages of
    encoding/json's errors are abbreviated. *)
Definition Decode {A} (d : Value → option A) (b : Body) : result A :=
  match Json b with
  | None => Err (errorString "invalid character looking for beginning of value")
  | Some v =>
      match d v with
      | Some a => Ok a
      | None => Err (errorString "json: cannot unmarshal value into Go value")
      end
  end.

(** ** The index API and the database

    The requests [CreateIndex] makes through the official client, and the
    queries of the relational store.  An engine of either kind is a state
    machine; what was asked of it is recorded beside its state. *)
Record Recorded (S C : Type) := {
  inner : S;
  calls : list C
}.
Arguments inner {S C} r.
Arguments calls {S C} r.

(** [client.Indices.Exists(indices)] and
    [client.Indices.Create(index, WithBody(mapping))]. *)
Inductive IndicesCall :=
| IndicesExists (indices : list string)
| IndicesCreate (index mapping : string).

Class Indices (S : Type) := {
  serveIndices : S → IndicesCall → HttpResult * S
}.

Definition doIndices {S} {ix : Indices S} (c : IndicesCall)
    : IO (Recorded S IndicesCall) HttpResult := λ w,
  let '(r, s') := serveIndices (inner (engine w)) c in
  (r, {| engine := {| inner := s'; calls := calls (engine w) ++ [c] |};
         trace := trace w |}).

(** What [sql.NullInt64] holds. *)
Record NullInt64 := {
  Int64 : Z;
  Valid : bool
}.

(** The answer to a query: the rows [rows.Next] steps through before it
    returns false, and the error [rows.Err] reports then, if any. *)
Record Cursor (R : Type) := {
  fetched : list R;
  iterationError : option error
}.
Arguments fetched {R} c.
Arguments iterationError {R} c.

(** A database with rows of type [R]: [queryContext] is [db.QueryContext],
    and the two scans are [rows.Scan] with the destinations of
    [GetBusinessTypes] and of [GetRegions] (the conversions are
    database/sql's). *)
Class Database (D R : Type) := {
  queryContext : D → string → result (Cursor R) * D;
  scanBusinessType : R → result (Z * string * string * Time * Time);
  scanRegion : R → result (Z * string * NullInt64 * Time * Time)
}.

Definition doQuery {D R} {db : Database D R} (query : string)
    : IO (Recorded D string) (result (Cursor R)) := λ w,
  let '(r, d') := queryContext (inner (engine w)) query in
  (r, {| engine := {| inner := d'; calls := calls (engine w) ++ [query] |};
         trace := trace w |}).

(** ** elasticsearch.go *)
Module storage.

(** The official client and the HTTP client are the [Network]; what remains
    of the struct is the index name and the base URL. *)
Record ElasticsearchStorage := {
  index : string;
  baseURL : string
}.

(** The anonymous struct [GetLocation] decodes into. *)
Record GetResult := {
  Found : bool;
  Source : Location
}.

Definition decodeGetResult : Value → option GetResult :=
  decodeStruct (λ m,
    found ← decodeField decodeBool false "found" m;
    source ← decodeField decodeLocation zeroLocation "_source" m;
    Some {| Found := found; Source := source |})
  {| Found := false; Source := zeroLocation |}.

(** The anonymous struct [RecommendLocations] decodes into. *)
Record Hit := {
  hitSource : Location;
  hitScore : float
}.

Record SearchResult := {
  TotalValue : Z;
  Hits : list Hit
}.

Definition zeroHit : Hit := {| hitSource := zeroLocation; hitScore := 0 |}.

Definition decodeHit : Value → option Hit :=
  decodeStruct (λ m,
    source ← decodeField decodeLocation zeroLocation "_source" m;
    score ← decodeField decodeFloat 0%float "_score" m;
    Some {| hitSource := source; hitScore := score |}) zeroHit.

Definition decodeSearchResult : Value → option SearchResult :=
  decodeStruct
    (decodeField
      (decodeStruct (λ h,
        total ← decodeField (decodeStruct (decodeField decodeInt 0 "value") 0) 0 "total" h;
        hits ← decodeField (decodeList decodeHit) [] "hits" h;
        Some {| TotalValue := total; Hits := hits |})
      {| TotalValue := 0; Hits := [] |})
      {| TotalValue := 0; Hits := [] |} "hits")
    {| TotalValue := 0; Hits := [] |}.

(** [buildRecommendQuery].  The function receives [*models.RecommendRequest] and assigns to
    [req.Limit]; the request as it stands after the call is the second
    component of the result. *)
Definition buildRecommendQuery (req : RecommendRequest) : Value * RecommendRequest :=
  let mustClauses : list Value := [] in
  let shouldClauses : list Value := [] in
  let mustClauses :=
    if decide (reqRegion req ≠ "")
    then mustClauses ++ [VMap {[ "term" := VMap {[ "region" := VString (reqRegion req) ]} ]}]
    else mustClauses in
  let mustClauses :=
    if decide (reqCity req ≠ "")
    then mustClauses ++ [VMap {[ "term" := VMap {[ "city" := VString (reqCity req) ]} ]}]
    else mustClauses in
  let mustClauses :=
    if decide (reqBusinessType req ≠ "")
    then mustClauses ++
         [VMap {[ "term" := VMap {[ "business_types_suitable" := VString (reqBusinessType req) ]} ]}]
    else mustClauses in
  let shouldClauses :=
    shouldClauses ++
    [VMap {[ "range" := VMap {[ "traffic_score" :=
       VMap (<["gte" := VFloat 7%float]> (<["boost" := VFloat 2%float]> ∅)) ]} ]}] in
  let shouldClauses :=
    shouldClauses ++
    [VMap {[ "range" := VMap {[ "competition_density" :=
       VMap (<["lte" := VFloat 3%float]> (<["boost" := VFloat 1.5%float]> ∅)) ]} ]}] in
  let query :=
    VMap (<["query" := VMap {[ "bool" :=
              VMap (<["must" := VList mustClauses]>
                   (<["should" := VList shouldClauses]>
                   (<["minimum_should_match" := VInt 0]> ∅))) ]}]>
         (<["sort" := VList [
              VMap {[ "_score" := VMap {[ "order" := VString "desc" ]} ]};
              VMap {[ "traffic_score" := VMap {[ "order" := VString "desc" ]} ]};
              VMap {[ "competition_density" := VMap {[ "order" := VString "asc" ]} ]} ]]> ∅)) in
  let req := if decide (reqLimit req = 0) then setLimit req 20 else req in
  (query, req).

Section with_network.
Context {S : Type} {net : Network S}.

(** [IndexLocation]: [nil] is [None]. *)
Definition IndexLocation (es : ElasticsearchStorage) (location : Location)
    : IO S (option error) :=
  match marshalLocation location with
  | Err err => mret (Some (Errorf_w "failed to marshal location: " err))
  | Ok body =>
      res ← doCall (EsIndex (index es) (ID location) body "true");
      match res with
      | Failed err => mret (Some (Errorf_w "failed to index location: " err))
      | Responded status body =>
          (* res.IsError() *)
          if status >? 299
          then mret (Some (errorString ("error indexing location: " +:+ Raw body)))
          else mret None
      end
  end.

Definition GetLocation (es : ElasticsearchStorage) (id : string)
    : IO S (result Location) :=
  let url := baseURL es +:+ "/" +:+ index es +:+ "/_doc/" +:+ id in
  match newRequestError "GET" url with
  | Some err => mret (Err (Errorf_w "failed to create request: " err))
  | None =>
      res ← doCall (HttpDo "GET" url "" None);
      match res with
      | Failed err => mret (Err (Errorf_w "failed to get location: " err))
      | Responded status body =>
          if status =? 404
          then mret (Err (errorString "location not found"))
          else if status >=? 400
          then mret (Err (errorString ("error getting location: status " +:+ fmt_d status
                                       +:+ ", body: " +:+ Raw body)))
          else
            match Decode decodeGetResult body with
            | Err err => mret (Err (Errorf_w "failed to decode response: " err))
            | Ok result =>
                if negb (Found result)
                then mret (Err (errorString "location not found"))
                else mret (Ok (Source result))
            end
      end
  end.

(** The loop over the hits: each hit's source, with the hit's score written
    into its [Score]. *)
Definition locationOfHit (hit : Hit) : Location :=
  let location := hitSource hit in
  setScore location (hitScore hit).

(** [RecommendLocations].  The request is handed back as the call leaves it
    ([buildRecommendQuery] writes to it).  Encoding the built query cannot
    fail: its only floats are four finite constants. *)
Definition RecommendLocations (es : ElasticsearchStorage) (req : RecommendRequest)
    : IO S (result (list Location) * RecommendRequest) :=
  let '(query, req) := buildRecommendQuery req in
  let url := baseURL es +:+ "/" +:+ index es +:+ "/_search?size=" +:+ fmt_d (reqLimit req) in
  match newRequestError "POST" url with
  | Some err => mret (Err (Errorf_w "failed to create request: " err), req)
  | None =>
      res ← doCall (HttpDo "POST" url "application/json" (Some query));
      match res with
      | Failed err => mret (Err (Errorf_w "failed to search: " err), req)
      | Responded status body =>
          if status >=? 400
          then mret (Err (errorString ("error searching: status " +:+ fmt_d status
                                       +:+ ", body: " +:+ Raw body)), req)
          else
            match Decode decodeSearchResult body with
            | Err err => mret (Err (Errorf_w "failed to decode response: " err), req)
            | Ok result => mret (Ok (locationOfHit <$> Hits result), req)
            end
      end
  end.

End with_network.
(** [NewElasticsearchStorageWithURL] and [NewElasticsearchStorage]; the
    client argument is the [Network]. *)
Definition NewElasticsearchStorageWithURL (index baseURL : string) : ElasticsearchStorage :=
  {| index := index; baseURL := baseURL |}.

Definition NewElasticsearchStorage (index : string) : ElasticsearchStorage :=
  NewElasticsearchStorageWithURL index "http://localhost:9200".

Section with_indices.
Context {S : Type} {ix : Indices S}.

Definition CreateIndex (es : ElasticsearchStorage) (mappingJSON : string)
    : IO (Recorded S IndicesCall) (option error) :=
  res ← doIndices (IndicesExists [index es]);
  match res with
  | Failed err => mret (Some (Errorf_w "failed to check index existence: " err))
  | Responded status _ =>
      if status =? 200
      then mret None
      else
        res ← doIndices (IndicesCreate (index es) mappingJSON);
        match res with
        | Failed err => mret (Some (Errorf_w "failed to create index: " err))
        | Responded status body =>
            (* res.IsError() *)
            if status >? 299
            then mret (Some (errorString ("error creating index: " +:+ Raw body)))
            else mret None
        end
  end.

End with_indices.

Section with_network_bulk.
Context {S : Type} {net : Network S}.

(** The loop of [BulkIndexLocations]: for each location, an action line and
    the location's document are appended to the buffer.  Encoding the
    action line cannot fail (it holds two strings). *)
Fixpoint bulkLines (index : string) (locations : list Location) (buf : list Value)
    : result (list Value) :=
  match locations with
  | [] => Ok buf
  | location :: locations =>
      let meta :=
        VMap {[ "index" := VMap (<["_index" := VString index]>
                                (<["_id" := VString (ID location)]> ∅)) ]} in
      match marshalLocation location with
      | Err err => Err (Errorf_w "failed to encode location: " err)
      | Ok doc => bulkLines index locations (buf ++ [meta; doc])
      end
  end.

(** [BulkIndexLocations].  The body of the request is newline-delimited
    JSON; it is given as the list of its lines. *)
Definition BulkIndexLocations (es : ElasticsearchStorage) (locations : list Location)
    : IO S (option error) :=
  match bulkLines (index es) locations [] with
  | Err err => mret (Some err)
  | Ok buf =>
      let url := baseURL es +:+ "/_bulk" in
      match newRequestError "POST" url with
      | Some err => mret (Some (Errorf_w "failed to create request: " err))
      | None =>
          res ← doCall (HttpDo "POST" url "application/x-ndjson" (Some (VList buf)));
          match res with
          | Failed err => mret (Some (Errorf_w "failed to bulk index: " err))
          | Responded status body =>
              if status >=? 400
              then mret (Some (errorString ("error bulk indexing: status " +:+ fmt_d status
                                            +:+ ", body: " +:+ Raw body)))
              else mret None
          end
      end
  end.

End with_network_bulk.

(** *** postgres.go

    [PostgresStorage] holds the database handle only, which is the world's
    engine; its methods take no receiver here. *)
Section with_database.
Context {D R : Type} {db : Database D R}.

(** The [for rows.Next()] loop of [GetBusinessTypes]. *)
Fixpoint scanBusinessTypes (rows : list R) (businessTypes : list BusinessType)
    : result (list BusinessType) :=
  match rows with
  | [] => Ok businessTypes
  | row :: rows =>
      match scanBusinessType row with
      | Err err => Err (Errorf_w "failed to scan business type: " err)
      | Ok (id, name, description, created, updated) =>
          let bt := {| btID := id; btName := name; btDescription := description;
                       btCreatedAt := created; btUpdatedAt := updated |} in
          scanBusinessTypes rows (businessTypes ++ [bt])
      end
  end.

Definition GetBusinessTypes : IO (Recorded D string) (result (list BusinessType)) :=
  let query :=
    "SELECT id, name, description, created_at, updated_at FROM business_types ORDER BY name" in
  res ← doQuery query;
  match res with
  | Err err => mret (Err (Errorf_w "failed to query business types: " err))
  | Ok rows =>
      match scanBusinessTypes (fetched rows) [] with
      | Err err => mret (Err err)
      | Ok businessTypes =>
          match iterationError rows with
          | Some err => mret (Err (Errorf_w "error iterating rows: " err))
          | None => mret (Ok businessTypes)
          end
      end
  end.

(** The [for rows.Next()] loop of [GetRegions]. *)
Fixpoint scanRegions (rows : list R) (regions : list Region_) : result (list Region_) :=
  match rows with
  | [] => Ok regions
  | row :: rows =>
      match scanRegion row with
      | Err err => Err (Errorf_w "failed to scan region: " err)
      | Ok (id, name, parentID, created, updated) =>
          let r := {| rID := id; rName := name;
                      rParentRegionID := if Valid parentID then Some (Int64 parentID) else None;
                      rCreatedAt := created; rUpdatedAt := updated |} in
          scanRegions rows (regions ++ [r])
      end
  end.

Definition GetRegions : IO (Recorded D string) (result (list Region_)) :=
  let query :=
    "SELECT id, name, parent_region_id, created_at, updated_at FROM regions ORDER BY name" in
  res ← doQuery query;
  match res with
  | Err err => mret (Err (Errorf_w "failed to query regions: " err))
  | Ok rows =>
      match scanRegions (fetched rows) [] with
      | Err err => mret (Err err)
      | Ok regions =>
          match iterationError rows with
          | Some err => mret (Err (Errorf_w "error iterating rows: " err))
          | None => mret (Ok regions)
          end
      end
  end.

End with_database.

End storage.

(** ** handlers.go *)
Module handlers.

Record Handlers := {
  esStorage : storage.ElasticsearchStorage
}.

(** What a handler reads of the [*http.Request]: the method, the route
    variables and the body. *)
Record Request := {
  Method : string;
  Vars : gmap string string;
  RequestBody : Body
}.

(** What a handler writes to the [http.ResponseWriter]: [http.Error] with a
    message and a status code, or a JSON document with status 200. *)
Inductive Reply :=
| httpError (msg : string) (code : Z)
| jsonReply (v : Value).

Section with_network.
Context {S : Type} {net : Network S}.

Definition RecommendLocations (h : Handlers) (r : Request) : IO S Reply :=
  if decide (Method r ≠ "POST")
  then mret (httpError "Method not allowed" 405)
  else
    match Decode decodeRecommendRequest (RequestBody r) with
    | Err _ => mret (httpError "Invalid request body" 400)
    | Ok req =>
        if decide (reqRegion req = "" ∨ reqBusinessType req = "")
        then mret (httpError "Region and business_type are required" 400)
        else
          let req := if decide (reqLimit req = 0) then setLimit req 20 else req in
          '(res, req) ← storage.RecommendLocations (esStorage h) req;
          match res with
          | Err err =>
              _ ← logPrintf ("Error recommending locations: " +:+ Error err);
              mret (httpError "Internal server error" 500)
          | Ok locations =>
              let locationValues := locations in
              let response :=
                {| Locations := locationValues;
                   Total := Z.of_nat (length locationValues) |} in
              match marshalRecommendResponse response with
              | Err err =>
                  _ ← logPrintf ("Error encoding response: " +:+ Error err);
                  mret (httpError "Internal server error" 500)
              | Ok v => mret (jsonReply v)
              end
          end
    end.

(** The [if err != nil] block of [GetLocation]. *)
Definition getLocationFailed (err : error) : IO S Reply :=
  if decide (Error err = "location not found")
  then mret (httpError "Location not found" 404)
  else
    _ ← logPrintf ("Error getting location: " +:+ Error err);
    mret (httpError "Internal server error" 500).

Definition GetLocation (h : Handlers) (r : Request) : IO S Reply :=
  if decide (Method r ≠ "GET")
  then mret (httpError "Method not allowed" 405)
  else
    let id := default "" (Vars r !! "id") in
    if decide (id = "")
    then mret (httpError "Location ID is required" 400)
    else
      res ← storage.GetLocation (esStorage h) id;
      match res with
      | Err err => getLocationFailed err
      | Ok location =>
          match marshalLocation location with
          | Err err =>
              _ ← logPrintf ("Error encoding response: " +:+ Error err);
              mret (httpError "Internal server error" 500)
          | Ok v => mret (jsonReply v)
          end
      end.

End with_network.
Section with_database.
Context {D R : Type} {db : Database D R}.

Definition GetBusinessTypes (h : Handlers) (r : Request) : IO (Recorded D string) Reply :=
  if decide (Method r ≠ "GET")
  then mret (httpError "Method not allowed" 405)
  else
    res ← storage.GetBusinessTypes;
    match res with
    | Err err =>
        _ ← logPrintf ("Error getting business types: " +:+ Error err);
        mret (httpError "Internal server error" 500)
    | Ok businessTypes =>
        let btValues := businessTypes in
        match marshalSlice marshalBusinessType btValues with
        | Err err =>
            _ ← logPrintf ("Error encoding response: " +:+ Error err);
            mret (httpError "Internal server error" 500)
        | Ok vs => mret (jsonReply (VList vs))
        end
    end.

Definition GetRegions (h : Handlers) (r : Request) : IO (Recorded D string) Reply :=
  if decide (Method r ≠ "GET")
  then mret (httpError "Method not allowed" 405)
  else
    res ← storage.GetRegions;
    match res with
    | Err err =>
        _ ← logPrintf ("Error getting regions: " +:+ Error err);
        mret (httpError "Internal server error" 500)
    | Ok regions =>
        let regionValues := regions in
        match marshalSlice marshalRegion regionValues with
        | Err err =>
            _ ← logPrintf ("Error encoding response: " +:+ Error err);
            mret (httpError "Internal server error" 500)
        | Ok vs => mret (jsonReply (VList vs))
        end
    end.

End with_database.

End handlers.

(** ** config *)
Module config.

Record Config := {
  ElasticsearchURL : string;
  PostgresHost : string;
  PostgresPort : string;
  PostgresUser : string;
  PostgresPassword : string;
  PostgresDB : string;
  AppPort : string
}.

(** [getEnv]; the process environment is the map [env], and [os.Getenv] of
    a variable that is not set is the empty string. *)
Definition getEnv (env : gmap string string) (key defaultValue : string) : string :=
  let value := default "" (env !! key) in
  if decide (value ≠ "") then value else defaultValue.

Definition Load (env : gmap string string) : Config :=
  {| ElasticsearchURL := getEnv env "ELASTICSEARCH_URL" "http://localhost:9200";
     PostgresHost := getEnv env "POSTGRES_HOST" "localhost";
     PostgresPort := getEnv env "POSTGRES_PORT" "5432";
     PostgresUser := getEnv env "POSTGRES_USER" "analytical_user";
     PostgresPassword := getEnv env "POSTGRES_PASSWORD" "analytical_pass";
     PostgresDB := getEnv env "POSTGRES_DB" "analytical_db";
     AppPort := getEnv env "APP_PORT" "8080" |}.

End config.

(** ** Reading a built query *)

(** [query.bool.must], [query.bool.should], [query.bool.minimum_should_match]
    and [sort] of a query. *)
Definition boolOf (q : Value) : option Value :=
  field "query" q ≫= field "bool".

Definition mustOf (q : Value) : option (list Value) :=
  b ← boolOf q; must ← field "must" b; asList must.

Definition shouldOf (q : Value) : option (list Value) :=
  b ← boolOf q; should ← field "should" b; asList should.

Definition minimumShouldMatchOf (q : Value) : option Value :=
  boolOf q ≫= field "minimum_should_match".

(** The value a clause's [term] filter binds to field [f], if the clause is
    a term filter on [f]. *)
Definition termOn (f : string) (clause : Value) : option Value :=
  field "term" clause ≫= field f.

(** The bound ([op] is [gte] or [lte]) and the boost of a clause's [range]
    condition on field [f]. *)
Definition rangeOn (f op : string) (clause : Value) : option (Value * Value) :=
  r ← field "range" clause ≫= field f;
  bound ← field op r;
  boost ← field "boost" r;
  Some (bound, boost).

(** The term clause the builder emits for a non-empty field value, none for
    an empty one. *)
Definition termClauseFor (f value : string) : list Value :=
  if decide (value = "") then []
  else [VMap {[ "term" := VMap {[ f := VString value ]} ]}].

(** The sort keys of a query, in order: each entry of [sort] is a map with
    one key, the field, bound to a map that gives the [order]. *)
Definition sortKeyOf (entry : Value) : option (string * string) :=
  match entry with
  | VMap m =>
      match map_to_list m with
      | [(f, spec)] =>
          match field "order" spec with
          | Some (VString o) => Some (f, o)
          | _ => None
          end
      | _ => None
      end
  | _ => None
  end.

Definition sortOf (q : Value) : option (list (string * string)) :=
  s ← field "sort" q; entries ← asList s; mapM sortKeyOf entries.

(** ** The order a sort specification asks for

    The engine's side of the contract: the value a hit is sorted on under a
    sort key, and the lexicographic order a list of sort keys describes.  A
    key on a field that is not one of the three below does not order hits
    here. *)
Definition sortValue (f : string) (h : storage.Hit) : option float :=
  if decide (f = "_score") then Some (storage.hitScore h)
  else if decide (f = "traffic_score") then Some (TrafficScore (storage.hitSource h))
  else if decide (f = "competition_density") then Some (CompetitionDensity (storage.hitSource h))
  else None.

Fixpoint mayPrecede (keys : list (string * string)) (a b : storage.Hit) : bool :=
  match keys with
  | [] => true
  | (f, o) :: keys =>
      match sortValue f a, sortValue f b with
      | Some x, Some y =>
          if decide (o = "desc")
          then PrimFloat.ltb y x || (PrimFloat.eqb x y && mayPrecede keys a b)
          else PrimFloat.ltb x y || (PrimFloat.eqb x y && mayPrecede keys a b)
      | _, _ => mayPrecede keys a b
      end
  end.

(** The ranking order of locations: higher score first; on equal scores,
    higher traffic score first; on equal traffic scores, lower competition
    density first (ties allowed). *)
Definition rankedBefore (a b : Location) : bool :=
  PrimFloat.ltb (Score b) (Score a)
  || (PrimFloat.eqb (Score a) (Score b)
      && (PrimFloat.ltb (TrafficScore b) (TrafficScore a)
          || (PrimFloat.eqb (TrafficScore a) (TrafficScore b)
              && (PrimFloat.ltb (CompetitionDensity a) (CompetitionDensity b)
                  || PrimFloat.eqb (CompetitionDensity a) (CompetitionDensity b))))).

(** ** errors.Is

    The structured way to classify an error: [err] is [target], or wraps an
    error that is. *)
#[global] Instance error_eq_dec : EqDecision error.
Proof. solve_decision. Defined.

Fixpoint Is (err target : error) : bool :=
  bool_decide (err = target)
  || match err with
     | wrapError _ inner => Is inner target
     | errorString _ => false
     end.

(** ** Engines *)

(** An engine that gives the same answer to every request. *)
Definition constNetwork (r : HttpResult) : Network unit :=
  {| serve := λ s _, (r, s);
     newRequestError := λ _ _, None |}.

(** A reference engine for the document API, reachable at [address]:
    documents are kept under the path of the request that writes them, a
    write replaces what is there and is visible to the next read.  The
    path of a request is what net/http makes of the URL it is given
    ([requestPath]): neither [GetLocation] nor the official client escapes
    the identifier it puts into the URL, so a fragment or a query that the
    identifier opens is not part of the path.  An engine's own reading of
    a path (percent-escapes) and its restrictions on identifiers are not
    modelled.  A document indexed without an identifier gets one of the
    engine's choosing, which the model does not name.  Requests other than
    a document write or a GET are not served.  [refuse] is net/http refusing
    a method and URL, for the requests made directly and for those the
    official client makes.  Bodies are given by the JSON they denote; their
    text is not rendered. *)
Record Store := {
  docs : gmap string Value;
  unnamed : list Value
}.

Fixpoint stripPrefix (p s : string) : option string :=
  match p, s with
  | EmptyString, _ => Some s
  | String a p, String b s => if decide (a = b) then stripPrefix p s else None
  | String _ _, EmptyString => None
  end.

Definition docPath (index id : string) : string :=
  "/" +:+ index +:+ "/_doc/" +:+ id.

(** The path net/http requests for the part of a URL that follows the
    address: [url.Parse] cuts the fragment off at the first ['#'] and the
    query at the first ['?']. *)
Fixpoint requestPath (s : string) : string :=
  match s with
  | EmptyString => EmptyString
  | String c s =>
      if decide (c = "#"%char ∨ c = "?"%char) then EmptyString
      else String c (requestPath s)
  end.

(** Names made of ASCII letters, digits, ['-'] and ['_'] only: a path built
    from them is requested as it is written, and read by an engine as it is
    requested. *)
Definition plainChar (a : ascii) : bool :=
  between 48 57 a || between 65 90 a || between 97 122 a
  || bool_decide (a = "-"%char) || bool_decide (a = "_"%char).

Fixpoint plainID (s : string) : bool :=
  match s with
  | EmptyString => true
  | String c s => plainChar c && plainID s
  end.

Definition jsonBody (v : Value) : Body := {| Raw := ""; Json := Some v |}.

Definition acceptAll : string → string → option error := λ _ _, None.

Definition docStore (address : string) (refuse : string → string → option error)
    : Network Store :=
  {| serve := λ st c,
       match c with
       | EsIndex index id body _ =>
           if decide (id = "")
           then match refuse "POST" (address +:+ "/" +:+ index +:+ "/_doc") with
                | Some err => (Failed err, st)
                | None =>
                    (Responded 201 (jsonBody (VMap {[ "result" := VString "created" ]})),
                     {| docs := docs st; unnamed := body :: unnamed st |})
                end
           else match refuse "PUT" (address +:+ docPath index id) with
                | Some err => (Failed err, st)
                | None =>
                    let path := requestPath (docPath index id) in
                    (Responded (if docs st !! path is Some _ then 200 else 201)
                       (jsonBody (VMap {[ "_id" := VString id ]})),
                     {| docs := <[path := body]> (docs st);
                        unnamed := unnamed st |})
                end
       | HttpDo method url _ _ =>
           match stripPrefix address url with
           | None => (Failed (errorString "dial tcp: lookup: no such host"), st)
           | Some rest =>
               if decide (method = "GET")
               then match docs st !! requestPath rest with
                    | Some doc =>
                        (Responded 200
                           (jsonBody (VMap (<["found" := VBool true]> (<["_source" := doc]> ∅)))), st)
                    | None =>
                        (Responded 404 (jsonBody (VMap {[ "found" := VBool false ]})), st)
                    end
               else (Responded 405 (jsonBody (VMap {[ "error" := VString "not served" ]})), st)
           end
       end;
     newRequestError := refuse |}.

(** The URL of the document with identifier [id]. *)
Definition docURL (es : storage.ElasticsearchStorage) (id : string) : string :=
  storage.baseURL es +:+ "/" +:+ storage.index es +:+ "/_doc/" +:+ id.

(** The URL of a search bounded by [n] results. *)
Definition searchURL (es : storage.ElasticsearchStorage) (n : Z) : string :=
  storage.baseURL es +:+ "/" +:+ storage.index es +:+ "/_search?size=" +:+ fmt_d n.

(** The request a search for [req] issues: the limit 0 is sent as 20, any
    other limit as it is. *)
Definition searchCall (es : storage.ElasticsearchStorage) (req : RecommendRequest) : Call :=
  HttpDo "POST" (searchURL es (if decide (reqLimit req = 0) then 20 else reqLimit req))
    "application/json" (Some (storage.buildRecommendQuery req).1).

(** ** Engines for the index API, the bulk API and the database *)

(** A registry of indices, by name, with the mapping each was created with:
    the existence check answers 200 when every index asked for is there and
    404 otherwise; creating an index that is there is refused with 400 and
    changes nothing. *)
Definition indexRegistry : Indices (gmap string string) :=
  {| serveIndices := λ st c,
       match c with
       | IndicesExists indices =>
           (Responded
              (if forallb (λ i, bool_decide (is_Some (st !! i))) indices then 200 else 404)
              {| Raw := ""; Json := None |}, st)
       | IndicesCreate index mapping =>
           match st !! index with
           | Some _ =>
               (Responded 400
                  (jsonBody (VMap {[ "error" := VString "resource_already_exists_exception" ]})),
                st)
           | None =>
               (Responded 200 (jsonBody (VMap {[ "acknowledged" := VBool true ]})),
                <[index := mapping]> st)
           end
       end |}.

(** The index and the identifier an action line of a bulk request names. *)
Definition bulkTarget (action : Value) : option (string * string) :=
  target ← field "index" action;
  match field "_index" target, field "_id" target with
  | Some (VString index), Some (VString id) => Some (index, id)
  | _, _ => None
  end.

(** The store after the lines of a bulk request, taken two at a time: an
    action line and the document to index.  A pair whose action line names
    no target is skipped.  The identifier of an action line travels in the
    body, not in a URL, and is taken as it is written. *)
Fixpoint applyBulk (lines : list Value) (st : Store) : Store :=
  match lines with
  | action :: doc :: lines =>
      applyBulk lines
        match bulkTarget action with
        | Some (index, id) =>
            if decide (id = "")
            then {| docs := docs st; unnamed := doc :: unnamed st |}
            else {| docs := <[docPath index id := doc]> (docs st); unnamed := unnamed st |}
        | None => st
        end
  | _ => st
  end.

(** The reference engine with the bulk API: a POST of lines to [/_bulk] is
    applied in order and answered with 200; every other request is served
    as by [docStore]. *)
Definition bulkStore (address : string) (refuse : string → string → option error)
    : Network Store :=
  {| serve := λ st c,
       match c with
       | HttpDo method url _ (Some (VList lines)) =>
           if decide (method = "POST" ∧ url = address +:+ "/_bulk")
           then (Responded 200 (jsonBody (VMap {[ "errors" := VBool false ]})),
                 applyBulk lines st)
           else serve (Network := docStore address refuse) st c
       | _ => serve (Network := docStore address refuse) st c
       end;
     newRequestError := refuse |}.

(** Rows of a sample database: a row of [business_types] (its description
    may be NULL) or a row of [regions] (its parent may be NULL). *)
Inductive SampleRow :=
| BusinessTypeRow (id : Z) (name : string) (description : option string) (created updated : Time)
| RegionRow (id : Z) (name : string) (parent : option Z) (created updated : Time).

(** A database that answers the two queries with the rows it was given, in
    the order given, and any other query with an error. *)
Definition tableDB (businessTypes regions : list SampleRow) : Database () SampleRow :=
  {| queryContext := λ d query,
       if decide (query =
         "SELECT id, name, description, created_at, updated_at FROM business_types ORDER BY name")
       then (Ok {| fetched := businessTypes; iterationError := None |}, d)
       else if decide (query =
         "SELECT id, name, parent_region_id, created_at, updated_at FROM regions ORDER BY name")
       then (Ok {| fetched := regions; iterationError := None |}, d)
       else (Err (errorString "pq: syntax error"), d);
     scanBusinessType := λ row,
       match row with
       | BusinessTypeRow id name (Some description) created updated =>
           Ok (id, name, description, created, updated)
       | BusinessTypeRow _ _ None _ _ =>
           Err (errorString "sql: Scan error on column index 2: converting NULL to string is unsupported")
       | RegionRow _ _ _ _ _ =>
           Err (errorString "sql: Scan error on column index 2: unsupported Scan")
       end;
     scanRegion := λ row,
       match row with
       | RegionRow id name parent created updated =>
           Ok (id, name, {| Int64 := default 0 parent; Valid := bool_decide (is_Some parent) |},
               created, updated)
       | BusinessTypeRow _ _ _ _ _ =>
           Err (errorString "sql: Scan error on column index 2: unsupported Scan")
       end |}.

(** A database that cannot be reached. *)
Definition noDB (cause : error) : Database () SampleRow :=
  {| queryContext := λ d _, (Err cause, d);
     scanBusinessType := λ _, Err cause;
     scanRegion := λ _, Err cause |}.

(** ** Sample data *)

Definition sampleStorage : storage.ElasticsearchStorage :=
  {| storage.index := "locations"; storage.baseURL := "http://localhost:9200" |}.

Definition sampleHandlers : handlers.Handlers :=
  {| handlers.esStorage := sampleStorage |}.

Definition sampleLocation (id : string) (traffic competition score : float) : Location :=
  {| ID := id; Name := "Corner unit"; Address := "1 Main street";
     Coordinates := {| Lat := 55.75; Lon := 37.5 |};
     Region := "Moscow"; City := "Moscow"; Description := "Ground floor";
     BusinessTypesSuitable := ["cafe"; "pharmacy"];
     TrafficScore := traffic; CompetitionDensity := competition;
     Demographics_ := {| AgeGroup := "26-35"; AverageIncome := 90000;
                         Interests := ["food"]; PopulationDensity := 4800.5 |};
     Embedding := [0.25%float; (-0.5)%float];
     CreatedAt := 1700000000000000000; UpdatedAt := 1700000000000000000;
     Score := score |}.

(** The JSON of a location (of one that marshals). *)
Definition sourceOf (l : Location) : Value :=
  match marshalLocation l with
  | Ok v => v
  | Err _ => VNull
  end.

Definition emptyWorld {S} (s : S) : World S := {| engine := s; trace := [] |}.

Definition emptyStore : Store := {| docs := ∅; unnamed := [] |}.

(** A recommendation request for cafes in Moscow, with the given [limit]
    key, and one without a business type. *)
Definition postRecommend (limit : Z) : handlers.Request :=
  {| handlers.Method := "POST"; handlers.Vars := ∅;
     handlers.RequestBody :=
       jsonBody (VMap (<["region" := VString "Moscow"]>
                      (<["business_type" := VString "cafe"]>
                      (<["limit" := VInt limit]> ∅)))) |}.

Definition postWithoutBusinessType : handlers.Request :=
  {| handlers.Method := "POST"; handlers.Vars := ∅;
     handlers.RequestBody := jsonBody (VMap {[ "region" := VString "Moscow" ]}) |}.

Definition getLocationRequest (id : string) : handlers.Request :=
  {| handlers.Method := "GET"; handlers.Vars := {[ "id" := id ]};
     handlers.RequestBody := {| Raw := ""; Json := None |} |}.

Definition connectionRefused : error :=
  errorString "dial tcp 127.0.0.1:9200: connect: connection refused".

(** The reference store at the sample storage's base URL, and an engine
    that cannot be reached. *)
Definition sampleStore : Network Store := docStore "http://localhost:9200" acceptAll.

Definition offline : Network unit := constNetwork (Failed connectionRefused).

(** An engine that answers 200 with a body that reports the document as not
    found. *)
Definition reportingAbsent : Network unit :=
  constNetwork (Responded 200 (jsonBody (VMap {[ "found" := VBool false ]}))).

(** A search response with two hits, in rank order, out of eight matches. *)
Definition sampleHits : Value :=
  VList [
    VMap (<["_score" := VFloat 3.5%float]>
         (<["_source" := sourceOf (sampleLocation "loc_7" 8.5 2 0)]> ∅));
    VMap (<["_score" := VFloat 1%float]>
         (<["_source" := sourceOf (sampleLocation "loc_3" 4 6.5 0)]> ∅)) ].

Definition sampleSearchResponse : Body :=
  jsonBody (VMap {[ "hits" :=
    VMap (<["total" := VMap {[ "value" := VInt 8 ]}]> (<["hits" := sampleHits]> ∅)) ]}).

(** An engine that answers every request with [sampleSearchResponse]. *)
Definition searchAnswered : Network unit := constNetwork (Responded 200 sampleSearchResponse).

(** What [sampleSearchResponse] decodes to. *)
Definition sampleSearchResult : storage.SearchResult :=
  {| storage.TotalValue := 8;
     storage.Hits :=
       [ {| storage.hitSource := sampleLocation "loc_7" 8.5 2 0; storage.hitScore := 3.5 |};
         {| storage.hitSource := sampleLocation "loc_3" 4 6.5 0; storage.hitScore := 1 |} ] |}.

(** The lines of a bulk request for [locations]: for each location, in
    order, the action line that names the index and the location's
    identifier, then the location's document. *)
Fixpoint bulkPayload (index : string) (locations : list Location) : list Value :=
  match locations with
  | [] => []
  | location :: locations =>
      VMap {[ "index" := VMap (<["_index" := VString index]>
                              (<["_id" := VString (ID location)]> ∅)) ]}
      :: sourceOf location
      :: bulkPayload index locations
  end.

(** The two queries of the reference store client. *)
Definition businessTypesQuery : string :=
  "SELECT id, name, description, created_at, updated_at FROM business_types ORDER BY name".

Definition regionsQuery : string :=
  "SELECT id, name, parent_region_id, created_at, updated_at FROM regions ORDER BY name".

(** A business type holds what the scan of a row gave; a region holds what
    the scan of a row gave, with the parent that the scanned
    [sql.NullInt64] stands for. *)
Definition scannedAs {D R} {db : Database D R} (row : R) (bt : BusinessType) : Prop :=
  scanBusinessType row
  = Ok (btID bt, btName bt, btDescription bt, btCreatedAt bt, btUpdatedAt bt).

Definition scannedAsRegion {D R} {db : Database D R} (row : R) (r : Region_) : Prop :=
  ∃ parent,
    scanRegion row = Ok (rID r, rName r, parent, rCreatedAt r, rUpdatedAt r)
    ∧ rParentRegionID r = if Valid parent then Some (Int64 parent) else None.

(** A world around an engine of which nothing was asked yet. *)
Definition freshWorld {S C} (s : S) : World (Recorded S C) :=
  {| engine := {| inner := s; calls := [] |}; trace := [] |}.

(** The sample store with the bulk API. *)
Definition sampleBulkStore : Network Store := bulkStore "http://localhost:9200" acceptAll.

Definition getRequest : handlers.Request :=
  {| handlers.Method := "GET"; handlers.Vars := ∅;
     handlers.RequestBody := {| Raw := ""; Json := None |} |}.

(** The seeded regions Russia (no parent) and Moscow (parent 1), and two
    business types. *)
Definition sampleRegions : list SampleRow :=
  [ RegionRow 5 "Moscow" (Some 1) 1700000000000000000 1700000000000000000;
    RegionRow 1 "Russia" None 1700000000000000000 1700000000000000000 ].

Definition sampleBusinessTypes : list SampleRow :=
  [ BusinessTypeRow 5 "barbershop" (Some "Barbershop") 1700000000000000000 1700000000000000000;
    BusinessTypeRow 1 "cafe" (Some "Cafe") 1700000000000000000 1700000000000000000 ].

Definition sampleDB : Database () SampleRow := tableDB sampleBusinessTypes sampleRegions.

(** ** Properties of the query builder *)

Lemma if_ne {A} (s t : string) (a b : A) :
  (if decide (s ≠ t) then a else b) = (if decide (s = t) then b else a).
Proof. destruct (decide (s = t)), (decide (s ≠ t)); done. Qed.

Lemma buildRecommendQuery_must req :
  mustOf (storage.buildRecommendQuery req).1
  = Some (termClauseFor "region" (reqRegion req)
          ++ termClauseFor "city" (reqCity req)
          ++ termClauseFor "business_types_suitable" (reqBusinessType req)).
Proof.
  unfold storage.buildRecommendQuery, termClauseFor. rewrite !if_ne.
  destruct (decide (reqRegion req = "")), (decide (reqCity req = "")),
    (decide (reqBusinessType req = "")); reflexivity.
Qed.

Lemma termClauseFor_count f g v :
  length (filter (λ c, is_Some (termOn f c)) (termClauseFor g v))
  = if decide (f = g ∧ v ≠ "") then 1%nat else 0%nat.
Proof.
  unfold termClauseFor.
  destruct (decide (v = "")) as [->|Hv].
  - destruct (decide _); naive_solver.
  - assert (termOn f (VMap {[ "term" := VMap {[ g := VString v ]} ]})
            = if decide (f = g) then Some (VString v) else None) as Hterm.
    { unfold termOn. cbn. rewrite lookup_singleton_eq. cbn.
      destruct (decide (f = g)) as [->|Hfg].
      - apply lookup_singleton_eq.
      - apply lookup_singleton_ne. congruence. }
    rewrite filter_cons, filter_nil, Hterm.
    destruct (decide (f = g)) as [->|Hfg].
    + rewrite decide_True by eauto. rewrite decide_True by done. done.
    + rewrite decide_False by (intros []; done).
      rewrite decide_False by naive_solver. done.
Qed.

(** C1. For every request, the mandatory ([must]) clauses of the built query
    are exactly: a term clause on [region] if the region is non-empty, then
    one on [city] if the city is non-empty, then one on
    [business_types_suitable] if the business type is non-empty, each bound
    to the request's value.  So each of the three fields has exactly one
    term clause when its value is non-empty and none when it is empty; three
    non-empty values give three clauses, and an empty city gives no clause
    on [city]. *)
Theorem C1_must_clauses (req : RecommendRequest) :
  ∃ must,
    mustOf (storage.buildRecommendQuery req).1 = Some must
    ∧ must = termClauseFor "region" (reqRegion req)
             ++ termClauseFor "city" (reqCity req)
             ++ termClauseFor "business_types_suitable" (reqBusinessType req)
    ∧ length (filter (λ c, is_Some (termOn "region" c)) must)
      = (if decide (reqRegion req = "") then 0 else 1)%nat
    ∧ length (filter (λ c, is_Some (termOn "city" c)) must)
      = (if decide (reqCity req = "") then 0 else 1)%nat
    ∧ length (filter (λ c, is_Some (termOn "business_types_suitable" c)) must)
      = (if decide (reqBusinessType req = "") then 0 else 1)%nat
    ∧ (reqRegion req ≠ "" ∧ reqCity req ≠ "" ∧ reqBusinessType req ≠ "" →
       must = [VMap {[ "term" := VMap {[ "region" := VString (reqRegion req) ]} ]};
               VMap {[ "term" := VMap {[ "city" := VString (reqCity req) ]} ]};
               VMap {[ "term" := VMap {[ "business_types_suitable" :=
                                           VString (reqBusinessType req) ]} ]}])
    ∧ (reqCity req = "" → Forall (λ c, termOn "city" c = None) must).
Proof.
  eexists. split; [apply buildRecommendQuery_must|]. split; [reflexivity|].
  rewrite !filter_app, !length_app, !termClauseFor_count.
  repeat split.
  - repeat destruct (decide _); naive_solver.
  - repeat destruct (decide _); naive_solver.
  - repeat destruct (decide _); naive_solver.
  - intros (Hr & Hc & Hb). unfold termClauseFor.
    rewrite !decide_False by done. reflexivity.
  - intros Hc. unfold termClauseFor. rewrite Hc.
    destruct (decide (reqRegion req = "")), (decide (reqBusinessType req = ""));
      repeat constructor.
Qed.

Lemma buildRecommendQuery_should req :
  shouldOf (storage.buildRecommendQuery req).1
  = Some [VMap {[ "range" := VMap {[ "traffic_score" :=
                    VMap (<["gte" := VFloat 7%float]> (<["boost" := VFloat 2%float]> ∅)) ]} ]};
          VMap {[ "range" := VMap {[ "competition_density" :=
                    VMap (<["lte" := VFloat 3%float]> (<["boost" := VFloat 1.5%float]> ∅)) ]} ]}].
Proof. reflexivity. Qed.

(** C2. For every request, whatever its content, the built query has exactly
    two non-mandatory ([should]) clauses: a range condition on
    [traffic_score] with [gte] 7.0 and boost 2.0, and a range condition on
    [competition_density] with [lte] 3.0 and boost 1.5; and
    [minimum_should_match] is 0. *)
Theorem C2_should_clauses (req : RecommendRequest) :
  ∃ traffic competition,
    shouldOf (storage.buildRecommendQuery req).1 = Some [traffic; competition]
    ∧ rangeOn "traffic_score" "gte" traffic = Some (VFloat 7%float, VFloat 2%float)
    ∧ rangeOn "competition_density" "lte" competition = Some (VFloat 3%float, VFloat 1.5%float)
    ∧ minimumShouldMatchOf (storage.buildRecommendQuery req).1 = Some (VInt 0).
Proof.
  do 2 eexists. split; [apply buildRecommendQuery_should|].
  split; [reflexivity|]. split; reflexivity.
Qed.

(** The built query does not depend on the request's limit. *)
Lemma buildRecommendQuery_query_setLimit req n :
  (storage.buildRecommendQuery (setLimit req n)).1 = (storage.buildRecommendQuery req).1.
Proof. reflexivity. Qed.

Lemma buildRecommendQuery_limit req :
  reqLimit (storage.buildRecommendQuery req).2
  = if decide (reqLimit req = 0) then 20 else reqLimit req.
Proof.
  unfold storage.buildRecommendQuery. cbn.
  destruct (decide (reqLimit req = 0)); reflexivity.
Qed.

(** C8, as the code has it. [buildRecommendQuery] computes its result from
    the request alone (it is a function of the request, with no access to
    the world), and of the request it writes one field: region, city and
    business type are left as they were, the limit is left as it was unless
    it is 0, and a limit of 0 is overwritten with 20. *)
Theorem C8_builder_writes_only_zero_limit (req : RecommendRequest) :
  let req' := (storage.buildRecommendQuery req).2 in
  reqRegion req' = reqRegion req
  ∧ reqCity req' = reqCity req
  ∧ reqBusinessType req' = reqBusinessType req
  ∧ reqLimit req' = (if decide (reqLimit req = 0) then 20 else reqLimit req)
  ∧ (reqLimit req ≠ 0 → req' = req).
Proof.
  cbn zeta. unfold storage.buildRecommendQuery. cbn.
  destruct (decide (reqLimit req = 0)) as [Hz|Hnz]; cbn.
  - repeat split; try reflexivity. intros Hne. contradiction.
  - repeat split; reflexivity.
Qed.

(** C8 fails as stated: a request with limit 0 is not left unchanged by
    [buildRecommendQuery]; its limit is 20 after the call. *)
Lemma C8_request_mutated_counterexample :
  let req := {| reqRegion := "Moscow"; reqCity := ""; reqBusinessType := "cafe";
                reqLimit := 0 |} in
  (storage.buildRecommendQuery req).2 ≠ req
  ∧ reqLimit (storage.buildRecommendQuery req).2 = 20.
Proof.
  cbn zeta. split.
  - intros Heq. apply (f_equal reqLimit) in Heq. vm_compute in Heq. discriminate.
  - reflexivity.
Qed.

(** ** Properties of the search path *)

Section search.
Context {S : Type} {net : Network S}.

Lemma storage_RecommendLocations_trace es req w :
  newRequestError "POST"
    (searchURL es (if decide (reqLimit req = 0) then 20 else reqLimit req)) = None →
  let w' := (storage.RecommendLocations es req w).2 in
  trace w' = trace w ++ [Called (searchCall es req)]
  ∧ engine w' = (serve (engine w) (searchCall es req)).2.
Proof.
  intros Hurl. unfold storage.RecommendLocations.
  pose proof (buildRecommendQuery_limit req) as Hlim.
  destruct (storage.buildRecommendQuery req) as [q req'] eqn:Hb. cbn in Hlim.
  fold (searchURL es (reqLimit req')). rewrite Hlim, Hurl.
  unfold searchCall. rewrite Hb. cbn [fst].
  unfold mbind, io_bind, doCall.
  destruct (serve (engine w) _) as [res s'].
  destruct res as [err|status body]; [by cbn|].
  destruct (status >=? 400); [by cbn|].
  destruct (Decode storage.decodeSearchResult body); by cbn.
Qed.

Lemma storage_RecommendLocations_ok es req w status body s' result :
  newRequestError "POST"
    (searchURL es (if decide (reqLimit req = 0) then 20 else reqLimit req)) = None →
  serve (engine w) (searchCall es req) = (Responded status body, s') →
  status < 400 →
  Decode storage.decodeSearchResult body = Ok result →
  storage.RecommendLocations es req w
  = ((Ok (storage.locationOfHit <$> storage.Hits result), (storage.buildRecommendQuery req).2),
     {| engine := s'; trace := trace w ++ [Called (searchCall es req)] |}).
Proof.
  intros Hurl Hserve Hstatus Hdecode. unfold storage.RecommendLocations.
  pose proof (buildRecommendQuery_limit req) as Hlim.
  unfold searchCall in Hserve.
  destruct (storage.buildRecommendQuery req) as [q req'] eqn:Hb. cbn in Hlim, Hserve.
  fold (searchURL es (reqLimit req')). rewrite Hlim, Hurl.
  unfold mbind, io_bind, doCall. rewrite Hserve.
  replace (status >=? 400) with false by lia.
  rewrite Hdecode. unfold searchCall. rewrite Hb. reflexivity.
Qed.

End search.

Section recommend.
Context {S : Type} {net : Network S}.

Lemma limit_defaulted req :
  (let req0 := if decide (reqLimit req = 0) then setLimit req 20 else req in
   if decide (reqLimit req0 = 0) then 20 else reqLimit req0)
  = (if decide (reqLimit req = 0) then 20 else reqLimit req).
Proof.
  cbn zeta. destruct (decide (reqLimit req = 0)) as [Hz|Hnz].
  - cbn [reqLimit setLimit]. by rewrite (decide_False (P := 20 = 0)) by lia.
  - by rewrite decide_False by exact Hnz.
Qed.

Lemma searchCall_defaulted es req :
  searchCall es (if decide (reqLimit req = 0) then setLimit req 20 else req)
  = searchCall es req.
Proof.
  destruct (decide (reqLimit req = 0)) as [Hz|Hnz]; [|reflexivity].
  unfold searchCall. cbn [reqLimit setLimit].
  rewrite buildRecommendQuery_query_setLimit.
  rewrite (decide_False (P := 20 = 0)) by lia. rewrite decide_True by exact Hz.
  reflexivity.
Qed.

(** Past validation, the handler's run is the storage call on the request
    with its limit defaulted, followed by the shaping of the response. *)
Lemma handlers_RecommendLocations_valid h r req w :
  handlers.Method r = "POST" →
  Decode decodeRecommendRequest (handlers.RequestBody r) = Ok req →
  reqRegion req ≠ "" →
  reqBusinessType req ≠ "" →
  handlers.RecommendLocations h r w
  = let '((res, _), w') :=
      storage.RecommendLocations (handlers.esStorage h)
        (if decide (reqLimit req = 0) then setLimit req 20 else req) w in
    match res with
    | Err err =>
        (handlers.httpError "Internal server error" 500,
         {| engine := engine w';
            trace := trace w' ++ [Logged ("Error recommending locations: " +:+ Error err)] |})
    | Ok locations =>
        match marshalRecommendResponse
                {| Locations := locations; Total := Z.of_nat (length locations) |} with
        | Err err =>
            (handlers.httpError "Internal server error" 500,
             {| engine := engine w';
                trace := trace w' ++ [Logged ("Error encoding response: " +:+ Error err)] |})
        | Ok v => (handlers.jsonReply v, w')
        end
    end.
Proof.
  intros Hmethod Hdecode Hregion Hbusiness. unfold handlers.RecommendLocations.
  rewrite decide_False by (rewrite Hmethod; intros Hne; by apply Hne).
  rewrite Hdecode. rewrite decide_False by tauto.
  unfold mbind, io_bind.
  destruct (storage.RecommendLocations _ _ w) as [[res req'] w'].
  destruct res as [locations|err]; [|reflexivity].
  destruct (marshalRecommendResponse _); reflexivity.
Qed.

(** C4, as the code has it. A recommendation request that passes validation
    reaches the engine as one search whose size is 20 when the request's
    limit is 0 (which is also what an absent limit decodes to) and the
    request's own limit otherwise; the substitution is made before the
    search request is issued. *)
Theorem C4_zero_limit_defaults_to_20 (h : handlers.Handlers) (r : handlers.Request)
    (req : RecommendRequest) (w : World S) :
  handlers.Method r = "POST" →
  Decode decodeRecommendRequest (handlers.RequestBody r) = Ok req →
  reqRegion req ≠ "" →
  reqBusinessType req ≠ "" →
  newRequestError "POST"
    (searchURL (handlers.esStorage h)
       (if decide (reqLimit req = 0) then 20 else reqLimit req)) = None →
  ∃ rest,
    trace (handlers.RecommendLocations h r w).2
    = trace w
      ++ Called (HttpDo "POST"
                   (searchURL (handlers.esStorage h)
                      (if decide (reqLimit req = 0) then 20 else reqLimit req))
                   "application/json" (Some (storage.buildRecommendQuery req).1))
         :: rest.
Proof.
  intros Hmethod Hdecode Hregion Hbusiness Hurl.
  rewrite (handlers_RecommendLocations_valid h r req w) by done.
  set (req0 := if decide (reqLimit req = 0) then setLimit req 20 else req).
  assert (searchCall (handlers.esStorage h) req0 = searchCall (handlers.esStorage h) req)
    as Hcall by apply searchCall_defaulted.
  destruct (storage_RecommendLocations_trace (handlers.esStorage h) req0 w) as [Htrace _].
  { pose proof (limit_defaulted req) as Hlim. cbn zeta in Hlim. fold req0 in Hlim.
    rewrite Hlim. exact Hurl. }
  cbn zeta in Htrace. rewrite Hcall in Htrace. fold (searchCall (handlers.esStorage h) req).
  destruct (storage.RecommendLocations _ req0 w) as [[res req'] w']. cbn [snd] in Htrace.
  destruct res as [locations|err].
  - destruct (marshalRecommendResponse _); cbn [snd trace].
    + exists []. exact Htrace.
    + eexists [_]. rewrite Htrace, <- app_assoc. reflexivity.
  - cbn [snd trace]. eexists [_]. rewrite Htrace, <- app_assoc. reflexivity.
Qed.

(** C5. A recommendation request whose region or business type is empty is
    answered with status 400, and the world is left as it was: no request is
    made to the search engine (and nothing is logged). *)
Theorem C5_missing_field_rejected (h : handlers.Handlers) (r : handlers.Request)
    (req : RecommendRequest) (w : World S) :
  handlers.Method r = "POST" →
  Decode decodeRecommendRequest (handlers.RequestBody r) = Ok req →
  reqRegion req = "" ∨ reqBusinessType req = "" →
  handlers.RecommendLocations h r w
  = (handlers.httpError "Region and business_type are required" 400, w).
Proof.
  intros Hmethod Hdecode Hempty. unfold handlers.RecommendLocations.
  rewrite decide_False by (rewrite Hmethod; intros Hne; by apply Hne).
  rewrite Hdecode. rewrite decide_True by exact Hempty. reflexivity.
Qed.

End recommend.

(** C4 fails as stated for a negative limit: a request with limit -5 is
    searched with size -5, not 20. *)
Lemma C4_negative_limit_counterexample :
  let r := postRecommend (-5) in
  let w := (handlers.RecommendLocations (net := offline)
              sampleHandlers r (emptyWorld ())).2 in
  (reqLimit <$> decodeRecommendRequest
                  (default VNull (Json (handlers.RequestBody r)))) = Some (-5)
  ∧ -5 ≤ 0
  ∧ (∃ q rest,
       trace w = Called (HttpDo "POST" "http://localhost:9200/locations/_search?size=-5"
                           "application/json" q) :: rest)
  ∧ "http://localhost:9200/locations/_search?size=-5" ≠ searchURL sampleStorage 20.
Proof.
  cbn zeta. split; [reflexivity|]. split; [lia|]. split.
  - do 2 eexists. vm_compute. reflexivity.
  - vm_compute. discriminate.
Qed.

(** An instance of C4: a request without a limit is searched with size 20. *)
Lemma C4_witness :
  ∃ rest,
    trace (handlers.RecommendLocations (net := offline)
             sampleHandlers (postRecommend 0) (emptyWorld ())).2
    = Called (HttpDo "POST" "http://localhost:9200/locations/_search?size=20"
                "application/json"
                (Some (storage.buildRecommendQuery
                         {| reqRegion := "Moscow"; reqCity := "";
                            reqBusinessType := "cafe"; reqLimit := 0 |}).1))
      :: rest.
Proof.
  apply (C4_zero_limit_defaults_to_20 (net := offline)
           sampleHandlers (postRecommend 0)
           {| reqRegion := "Moscow"; reqCity := ""; reqBusinessType := "cafe"; reqLimit := 0 |}
           (emptyWorld ())).
  - reflexivity.
  - reflexivity.
  - discriminate.
  - discriminate.
  - reflexivity.
Defined.

(** An instance of C5: a request without a business type is rejected and
    the store is not contacted. *)
Lemma C5_witness :
  handlers.RecommendLocations (net := sampleStore)
    sampleHandlers postWithoutBusinessType (emptyWorld emptyStore)
  = (handlers.httpError "Region and business_type are required" 400, emptyWorld emptyStore).
Proof.
  apply (C5_missing_field_rejected (net := sampleStore)
           sampleHandlers postWithoutBusinessType
           {| reqRegion := "Moscow"; reqCity := ""; reqBusinessType := ""; reqLimit := 0 |}).
  - reflexivity.
  - reflexivity.
  - right. reflexivity.
Defined.

(** ** Properties of the JSON model *)

Lemma marshalFloat_finite f : finite f = true → marshalFloat f = Ok (VFloat f).
Proof. unfold marshalFloat. by intros ->. Qed.

Lemma decodeFloat_VFloat f : finite f = true → decodeFloat (VFloat f) = Some f.
Proof. cbn. by intros ->. Qed.

Lemma decodeField_present {A} (d : Value → option A) z k m v :
  m !! k = Some v → decodeField d z k m = d v.
Proof. unfold decodeField. by intros ->. Qed.

Lemma decodeField_absent {A} (d : Value → option A) z k m :
  m !! k = None → decodeField d z k m = Some z.
Proof. unfold decodeField. by intros ->. Qed.

Ltac decode_fields :=
  repeat first [ erewrite decodeField_present by reflexivity
               | rewrite decodeField_absent by reflexivity ].

Lemma marshalFloats_finite l : forallb finite l = true → marshalFloats l = Ok (VFloat <$> l).
Proof.
  induction l as [|f l IH]; [done|]. cbn [forallb]. intros [Hf Hl]%andb_true_iff.
  cbn [marshalFloats]. rewrite marshalFloat_finite, IH by done. reflexivity.
Qed.

Lemma decodeList_strings l : decodeList decodeString (marshalStrings l) = Some l.
Proof.
  unfold marshalStrings, decodeList. induction l as [|s l IH]; [done|].
  cbn. cbn in IH. by rewrite IH.
Qed.

Lemma decodeList_floats l : forallb finite l = true → decodeList decodeFloat (VList (VFloat <$> l)) = Some l.
Proof.
  unfold decodeList. induction l as [|f l IH]; [done|].
  cbn [forallb]. intros [Hf Hl]%andb_true_iff.
  cbn. rewrite Hf. cbn. cbn in IH. by rewrite IH.
Qed.


Lemma marshalTime_inRange t : timeInRange t = true → marshalTime t = Ok (VTime t).
Proof. unfold marshalTime. by intros ->. Qed.

Lemma decodeTime_VTime t : timeInRange t = true → decodeTime (VTime t) = Some t.
Proof. cbn. by intros ->. Qed.

Lemma marshalGeoPoint_encodable g :
  encodableGeoPoint g = true →
  marshalGeoPoint g = Ok (VMap (<["lat" := VFloat (Lat g)]> (<["lon" := VFloat (Lon g)]> ∅))).
Proof.
  intros [H1 H2]%andb_true_iff. unfold marshalGeoPoint.
  rewrite !marshalFloat_finite by done. reflexivity.
Qed.

Lemma decodeGeoPoint_marshalled g :
  encodableGeoPoint g = true →
  decodeGeoPoint (VMap (<["lat" := VFloat (Lat g)]> (<["lon" := VFloat (Lon g)]> ∅))) = Some g.
Proof.
  intros [H1 H2]%andb_true_iff. unfold decodeGeoPoint, decodeStruct.
  decode_fields. rewrite !decodeFloat_VFloat by done. by destruct g.
Qed.

Lemma marshalDemographics_encodable d :
  encodableDemographics d = true →
  marshalDemographics d
  = Ok (VMap (<["age_group" := VString (AgeGroup d)]>
             (<["average_income" := VFloat (AverageIncome d)]>
             (<["interests" := marshalStrings (Interests d)]>
             (<["population_density" := VFloat (PopulationDensity d)]> ∅))))).
Proof.
  intros [H1 H2]%andb_true_iff. unfold marshalDemographics.
  rewrite !marshalFloat_finite by done. reflexivity.
Qed.

Lemma decodeDemographics_marshalled d :
  encodableDemographics d = true →
  decodeDemographics
    (VMap (<["age_group" := VString (AgeGroup d)]>
          (<["average_income" := VFloat (AverageIncome d)]>
          (<["interests" := marshalStrings (Interests d)]>
          (<["population_density" := VFloat (PopulationDensity d)]> ∅)))))
  = Some d.
Proof.
  intros [H1 H2]%andb_true_iff. unfold decodeDemographics, decodeStruct.
  decode_fields. rewrite !decodeFloat_VFloat, decodeList_strings by done.
  by destruct d.
Qed.

Lemma decodeLocation_marshalLocation l :
  encodable l = true →
  ∃ v, marshalLocation l = Ok v
       ∧ decodeLocation v
         = Some (setScore l (if PrimFloat.eqb (Score l) 0 then 0%float else Score l)).
Proof.
  unfold encodable. rewrite !andb_true_iff.
  intros [[[[[[[Hgeo Htraffic] Hcompetition] Hdemo] Hemb] Hcreated] Hupdated] Hscore].
  unfold marshalLocation.
  rewrite marshalGeoPoint_encodable, marshalDemographics_encodable, marshalFloats_finite,
    !marshalFloat_finite, !marshalTime_inRange by done.
  cbn [mbind result_bind].
  eexists. split; [reflexivity|].
  unfold decodeLocation, decodeStruct.
  destruct (decide (Embedding l = [])) as [Hnil|Hcons],
    (PrimFloat.eqb (Score l) 0) eqn:Hzero.
  all: decode_fields.
  all: rewrite ?decodeGeoPoint_marshalled, ?decodeDemographics_marshalled,
         ?decodeList_strings, ?decodeList_floats, ?decodeFloat_VFloat,
         ?decodeTime_VTime by done.
  all: cbn [mbind option_bind decodeString].
  all: destruct l; cbn in *; subst; reflexivity.
Qed.

Lemma decodeField_Some {A} (P : A → Prop) (d : Value → option A) z k m a :
  P z → (∀ v b, d v = Some b → P b) → decodeField d z k m = Some a → P a.
Proof.
  intros Hz Hd. unfold decodeField.
  destruct (m !! k) as [v|]; [apply Hd|]. by intros [= <-].
Qed.

Lemma decodeStruct_Some {A} (P : A → Prop) (d : gmap string Value → option A) z v a :
  P z → (∀ m b, d m = Some b → P b) → decodeStruct d z v = Some a → P a.
Proof.
  intros Hz Hd. destruct v; cbn; try done; [by intros [= <-]|apply Hd].
Qed.

Lemma decodeFloat_finite v f : decodeFloat v = Some f → finite f = true.
Proof.
  destruct v as [| |n|g| | | |]; cbn; try done.
  - by intros [= <-].
  - destruct (finite (float_of_Z n)) eqn:Hn; [|done]. by intros [= <-].
  - destruct (finite g) eqn:Hg; [|done]. by intros [= <-].
Qed.

Lemma decodeTime_inRange v t : decodeTime v = Some t → timeInRange t = true.
Proof.
  destruct v as [| | | | |u| |]; cbn; try done.
  - by intros [= <-].
  - destruct (timeInRange u) eqn:Hu; [|done]. by intros [= <-].
Qed.

Lemma decodeList_Forall {A} (P : A → Prop) (d : Value → option A) v l :
  (∀ x a, d x = Some a → P a) → decodeList d v = Some l → Forall P l.
Proof.
  intros Hd. destruct v as [| | | | | |xs|]; cbn; try done.
  - by intros [= <-].
  - intros Hl%mapM_Some. induction Hl; constructor; eauto.
Qed.

Lemma decodeFloats_finite v l :
  decodeList decodeFloat v = Some l → forallb finite l = true.
Proof.
  intros Hl. apply forallb_forall. intros f Hf%list_elem_of_In.
  pose proof (decodeList_Forall (λ f, finite f = true) _ _ _ decodeFloat_finite Hl) as Hall.
  by apply (proj1 (Forall_forall _ _) Hall).
Qed.

Ltac bind_inv H :=
  repeat (apply bind_Some in H as (? & ? & H)); injection H as <-.

Lemma decodeGeoPoint_encodable v g : decodeGeoPoint v = Some g → encodableGeoPoint g = true.
Proof.
  apply (decodeStruct_Some (λ g, encodableGeoPoint g = true)); [reflexivity|].
  intros m b Hb. bind_inv Hb. unfold encodableGeoPoint. cbn.
  apply andb_true_iff; split;
    (eapply (decodeField_Some (λ f, finite f = true)); [| |eassumption]; [reflexivity|apply decodeFloat_finite]).
Qed.

Lemma decodeDemographics_encodable v d :
  decodeDemographics v = Some d → encodableDemographics d = true.
Proof.
  apply (decodeStruct_Some (λ d, encodableDemographics d = true)); [reflexivity|].
  intros m b Hb. bind_inv Hb. unfold encodableDemographics. cbn.
  apply andb_true_iff; split;
    (eapply (decodeField_Some (λ f, finite f = true)); [| |eassumption]; [reflexivity|apply decodeFloat_finite]).
Qed.

Lemma decodeLocation_encodable v l : decodeLocation v = Some l → encodable l = true.
Proof.
  apply (decodeStruct_Some (λ l, encodable l = true)); [reflexivity|].
  intros m b Hb. bind_inv Hb. unfold encodable.
  rewrite !andb_true_iff. repeat split.
  - eapply (decodeField_Some (λ g, encodableGeoPoint g = true));
      [| |eassumption]; [reflexivity|apply decodeGeoPoint_encodable].
  - eapply (decodeField_Some (λ f, finite f = true)); [| |eassumption]; [reflexivity|apply decodeFloat_finite].
  - eapply (decodeField_Some (λ f, finite f = true)); [| |eassumption]; [reflexivity|apply decodeFloat_finite].
  - eapply (decodeField_Some (λ d, encodableDemographics d = true));
      [| |eassumption]; [reflexivity|apply decodeDemographics_encodable].
  - eapply (decodeField_Some (λ l, forallb finite l = true));
      [| |eassumption]; [reflexivity|apply decodeFloats_finite].
  - eapply (decodeField_Some (λ t, timeInRange t = true)); [| |eassumption]; [reflexivity|apply decodeTime_inRange].
  - eapply (decodeField_Some (λ t, timeInRange t = true)); [| |eassumption]; [reflexivity|apply decodeTime_inRange].
  - eapply (decodeField_Some (λ f, finite f = true)); [| |eassumption]; [reflexivity|apply decodeFloat_finite].
Qed.

Lemma decodeHit_encodable v h :
  storage.decodeHit v = Some h → encodable (storage.locationOfHit h) = true.
Proof.
  apply (decodeStruct_Some (λ h, encodable (storage.locationOfHit h) = true)); [reflexivity|].
  intros m b Hb. bind_inv Hb.
  match goal with H : decodeField decodeLocation _ _ _ = Some ?l |- _ =>
    assert (encodable l = true) as Hl
      by (eapply (decodeField_Some (λ l, encodable l = true));
            [| |exact H]; [reflexivity|apply decodeLocation_encodable]) end.
  match goal with H : decodeField decodeFloat _ _ _ = Some ?f |- _ =>
    assert (finite f = true) as Hf
      by (eapply (decodeField_Some (λ f, finite f = true));
            [| |exact H]; [reflexivity|apply decodeFloat_finite]) end.
  revert Hl. unfold encodable, storage.locationOfHit. cbn.
  rewrite !andb_true_iff. tauto.
Qed.

Lemma decodeSearchResult_encodable v result :
  storage.decodeSearchResult v = Some result →
  Forall (λ l, encodable l = true) (storage.locationOfHit <$> storage.Hits result).
Proof.
  set (P := λ r, Forall (λ l, encodable l = true)
                   (storage.locationOfHit <$> storage.Hits r)).
  apply (decodeStruct_Some P); [by constructor|].
  intros m b. apply (decodeField_Some P); [by constructor|]. intros hv b'.
  apply (decodeStruct_Some P); [by constructor|].
  intros m' b'' Hb. bind_inv Hb. unfold P. cbn [storage.Hits]. apply Forall_fmap.
  match goal with H : decodeField (decodeList _) _ _ _ = Some _ |- _ =>
    eapply (decodeField_Some (Forall (λ h, encodable (storage.locationOfHit h) = true)));
      [by constructor| |exact H] end.
  intros hs l. apply decodeList_Forall. apply decodeHit_encodable.
Qed.

Lemma marshalLocations_encodable ls :
  Forall (λ l, encodable l = true) ls →
  ∃ vs, marshalLocations ls = Ok vs ∧ length vs = length ls.
Proof.
  induction 1 as [|l ls Hl _ (vs & Hvs & Hlen)]; [by exists []|].
  destruct (decodeLocation_marshalLocation l Hl) as (v & Hv & _).
  exists (v :: vs). cbn [marshalLocations]. rewrite Hv, Hvs. cbn.
  by rewrite Hlen.
Qed.

Lemma marshalLocations_Forall2 ls vs :
  marshalLocations ls = Ok vs → Forall2 (λ l v, marshalLocation l = Ok v) ls vs.
Proof.
  revert vs. induction ls as [|l ls IH]; intros vs; cbn [marshalLocations].
  - intros [= <-]. constructor.
  - destruct (marshalLocation l) as [v|] eqn:Hv; [|done].
    destruct (marshalLocations ls) as [vs'|]; [|done].
    intros [= <-]. constructor; [done|by apply IH].
Qed.

(** ** Properties of the recommendation response *)

Section response.
Context {S : Type} {net : Network S}.

(** C9. When the search succeeds, the recommendation response lists the
    locations of the hits in the order the search layer returned them (the
    i-th entry is the i-th hit's source with the hit's score), and its total
    is the number of these entries, whatever matching-set count
    ([hits.total.value]) the engine reported. *)
Theorem C9_total_is_number_returned (h : handlers.Handlers) (r : handlers.Request)
    (req : RecommendRequest) (w : World S) (status : Z) (body : Body) (s' : S)
    (result : storage.SearchResult) :
  handlers.Method r = "POST" →
  Decode decodeRecommendRequest (handlers.RequestBody r) = Ok req →
  reqRegion req ≠ "" →
  reqBusinessType req ≠ "" →
  newRequestError "POST"
    (searchURL (handlers.esStorage h)
       (if decide (reqLimit req = 0) then 20 else reqLimit req)) = None →
  serve (engine w) (searchCall (handlers.esStorage h) req) = (Responded status body, s') →
  status < 400 →
  Decode storage.decodeSearchResult body = Ok result →
  ∃ v vs,
    handlers.RecommendLocations h r w
    = (handlers.jsonReply v,
       {| engine := s';
          trace := trace w ++ [Called (searchCall (handlers.esStorage h) req)] |})
    ∧ marshalRecommendResponse
        {| Locations := storage.locationOfHit <$> storage.Hits result;
           Total := Z.of_nat (length (storage.Hits result)) |} = Ok v
    ∧ field "total" v = Some (VInt (Z.of_nat (length (storage.Hits result))))
    ∧ field "locations" v = Some (VList vs)
    ∧ length vs = length (storage.Hits result)
    ∧ ∀ i hit, storage.Hits result !! i = Some hit →
        ∃ vi, vs !! i = Some vi ∧ marshalLocation (storage.locationOfHit hit) = Ok vi.
Proof.
  intros Hmethod Hdecode Hregion Hbusiness Hurl Hserve Hstatus Hresult.
  rewrite (handlers_RecommendLocations_valid h r req w) by done.
  set (req0 := if decide (reqLimit req = 0) then setLimit req 20 else req).
  assert (searchCall (handlers.esStorage h) req0 = searchCall (handlers.esStorage h) req)
    as Hcall by apply searchCall_defaulted.
  assert (newRequestError "POST"
            (searchURL (handlers.esStorage h)
               (if decide (reqLimit req0 = 0) then 20 else reqLimit req0)) = None) as Hurl0.
  { pose proof (limit_defaulted req) as Hlim. cbn zeta in Hlim. fold req0 in Hlim.
    rewrite Hlim. exact Hurl. }
  assert (serve (engine w) (searchCall (handlers.esStorage h) req0)
          = (Responded status body, s')) as Hserve0.
  { rewrite Hcall. exact Hserve. }
  rewrite (storage_RecommendLocations_ok (handlers.esStorage h) req0 w status body s' result
             Hurl0 Hserve0 Hstatus Hresult).
  rewrite Hcall.
  assert (Decode storage.decodeSearchResult body = Ok result) as Hresult' by done.
  unfold Decode in Hresult'. destruct (Json body) as [jv|]; [|done].
  destruct (storage.decodeSearchResult jv) as [res|] eqn:Hjv; [|done].
  injection Hresult' as ->.
  destruct (marshalLocations_encodable _ (decodeSearchResult_encodable _ _ Hjv))
    as (vs & Hvs & Hlen).
  rewrite length_fmap in Hlen.
  exists (VMap (<["locations" := VList vs]>
               (<["total" := VInt (Z.of_nat (length (storage.Hits result)))]> ∅))), vs.
  assert (marshalRecommendResponse
            {| Locations := storage.locationOfHit <$> storage.Hits result;
               Total := Z.of_nat (length (storage.Hits result)) |}
          = Ok (VMap (<["locations" := VList vs]>
                     (<["total" := VInt (Z.of_nat (length (storage.Hits result)))]> ∅))))
    as Hmarshal.
  { unfold marshalRecommendResponse. cbn [Locations Total]. by rewrite Hvs. }
  rewrite length_fmap, Hmarshal.
  repeat split; try done.
  intros i hit Hi. apply marshalLocations_Forall2 in Hvs.
  assert ((storage.locationOfHit <$> storage.Hits result) !! i
          = Some (storage.locationOfHit hit)) as Hloc
    by (by rewrite list_lookup_fmap, Hi).
  destruct (Forall2_lookup_l _ _ _ _ _ Hvs Hloc) as (vi & Hvi & Hm). by exists vi.
Qed.

End response.

(** An instance of C9: two hits out of eight matches give a total of 2. *)
Lemma C9_witness :
  ∃ v, (handlers.RecommendLocations (net := searchAnswered)
          sampleHandlers (postRecommend 5) (emptyWorld ())).1 = handlers.jsonReply v
       ∧ field "total" v = Some (VInt 2).
Proof.
  destruct (C9_total_is_number_returned
              (net := searchAnswered)
              sampleHandlers (postRecommend 5)
              {| reqRegion := "Moscow"; reqCity := ""; reqBusinessType := "cafe";
                 reqLimit := 5 |}
              (emptyWorld ()) 200 sampleSearchResponse () sampleSearchResult)
    as (v & vs & Hreply & _ & Htotal & _).
  - reflexivity.
  - reflexivity.
  - discriminate.
  - discriminate.
  - reflexivity.
  - reflexivity.
  - lia.
  - vm_compute. reflexivity.
  - exists v. rewrite Hreply. split; [reflexivity|exact Htotal].
Defined.

(** ** Properties of the result order *)

Lemma buildRecommendQuery_sort req :
  sortOf (storage.buildRecommendQuery req).1
  = Some [("_score", "desc"); ("traffic_score", "desc"); ("competition_density", "asc")].
Proof. reflexivity. Qed.

(** The order the three sort keys describe on hits is the ranking order of
    the locations made from them. *)
Lemma mayPrecede_rankedBefore a b :
  mayPrecede [("_score", "desc"); ("traffic_score", "desc"); ("competition_density", "asc")] a b
  = rankedBefore (storage.locationOfHit a) (storage.locationOfHit b).
Proof.
  transitivity
    (PrimFloat.ltb (storage.hitScore b) (storage.hitScore a)
     || (PrimFloat.eqb (storage.hitScore a) (storage.hitScore b)
         && (PrimFloat.ltb (TrafficScore (storage.hitSource b))
                           (TrafficScore (storage.hitSource a))
             || (PrimFloat.eqb (TrafficScore (storage.hitSource a))
                               (TrafficScore (storage.hitSource b))
                 && (PrimFloat.ltb (CompetitionDensity (storage.hitSource a))
                                   (CompetitionDensity (storage.hitSource b))
                     || (PrimFloat.eqb (CompetitionDensity (storage.hitSource a))
                                       (CompetitionDensity (storage.hitSource b))
                         && true)))))); [reflexivity|].
  rewrite andb_true_r. reflexivity.
Qed.

(** C3. The built query asks for the sort order [_score] descending, then
    [traffic_score] descending, then [competition_density] ascending, in
    that sequence.  Consequently, when the engine answers a search with hits
    in the order the query's sort asks for, the locations
    [RecommendLocations] returns are in ranking order: by score descending,
    ties by traffic score descending, then by competition density
    ascending.  This holds for neighbouring entries ([Sorted]) and for all
    pairs ([StronglySorted]) alike. *)
Theorem C3_sort_order (req : RecommendRequest) :
  sortOf (storage.buildRecommendQuery req).1
  = Some [("_score", "desc"); ("traffic_score", "desc"); ("competition_density", "asc")]
  ∧ ∀ (S : Type) (net : Network S) (es : storage.ElasticsearchStorage) (w : World S)
      (status : Z) (body : Body) (s' : S) (result : storage.SearchResult)
      (keys : list (string * string)),
      sortOf (storage.buildRecommendQuery req).1 = Some keys →
      newRequestError "POST"
        (searchURL es (if decide (reqLimit req = 0) then 20 else reqLimit req)) = None →
      serve (engine w) (searchCall es req) = (Responded status body, s') →
      status < 400 →
      Decode storage.decodeSearchResult body = Ok result →
      ∃ locations,
        (storage.RecommendLocations es req w).1.1 = Ok locations
        ∧ length locations = length (storage.Hits result)
        ∧ (Sorted (λ a b, mayPrecede keys a b) (storage.Hits result) →
           Sorted (λ a b, rankedBefore a b) locations)
        ∧ (StronglySorted (λ a b, mayPrecede keys a b) (storage.Hits result) →
           StronglySorted (λ a b, rankedBefore a b) locations).
Proof.
  split; [apply buildRecommendQuery_sort|].
  intros S net es w status body s' result keys Hkeys Hurl Hserve Hstatus Hresult.
  rewrite buildRecommendQuery_sort in Hkeys. injection Hkeys as <-.
  rewrite (storage_RecommendLocations_ok es req w status body s' result) by done.
  eexists. split; [reflexivity|]. split; [apply length_fmap|]. split.
  - apply Sorted_fmap. intros a b. by rewrite mayPrecede_rankedBefore.
  - apply StronglySorted_fmap. intros a b. by rewrite mayPrecede_rankedBefore.
Qed.

(** An instance of C3: the two sample hits, returned in rank order, give two
    locations in ranking order. *)
Lemma C3_witness :
  ∃ locations,
    (storage.RecommendLocations (net := searchAnswered)
       sampleStorage
       {| reqRegion := "Moscow"; reqCity := ""; reqBusinessType := "cafe"; reqLimit := 5 |}
       (emptyWorld ())).1.1 = Ok locations
    ∧ length locations = 2%nat
    ∧ Sorted (λ a b, rankedBefore a b) locations.
Proof.
  destruct (proj2 (C3_sort_order
                     {| reqRegion := "Moscow"; reqCity := ""; reqBusinessType := "cafe";
                        reqLimit := 5 |})
              unit (searchAnswered) sampleStorage
              (emptyWorld ()) 200 sampleSearchResponse () sampleSearchResult
              [("_score", "desc"); ("traffic_score", "desc"); ("competition_density", "asc")])
    as (locations & Hok & Hlen & Hsorted & _).
  - reflexivity.
  - reflexivity.
  - reflexivity.
  - lia.
  - vm_compute. reflexivity.
  - exists locations. split; [exact Hok|]. split; [exact Hlen|].
    apply Hsorted. repeat constructor.
Defined.

(** ** Properties of the point lookup *)

Section lookup.
Context {S : Type} {net : Network S}.

(** What [GetLocation] returns, by the outcome of its one request. *)
Lemma storage_GetLocation_run es id w res s' :
  newRequestError "GET" (docURL es id) = None →
  serve (engine w) (HttpDo "GET" (docURL es id) "" None) = (res, s') →
  storage.GetLocation es id w
  = (match res with
     | Failed cause => Err (Errorf_w "failed to get location: " cause)
     | Responded status body =>
         if status =? 404 then Err (errorString "location not found")
         else if status >=? 400
         then Err (errorString ("error getting location: status " +:+ fmt_d status
                                +:+ ", body: " +:+ Raw body))
         else match Decode storage.decodeGetResult body with
              | Err err => Err (Errorf_w "failed to decode response: " err)
              | Ok result =>
                  if negb (storage.Found result)
                  then Err (errorString "location not found")
                  else Ok (storage.Source result)
              end
     end,
     {| engine := s'; trace := trace w ++ [Called (HttpDo "GET" (docURL es id) "" None)] |}).
Proof.
  intros Hurl Hserve. unfold storage.GetLocation. fold (docURL es id).
  rewrite Hurl. unfold mbind, io_bind, doCall. rewrite Hserve.
  destruct res as [cause|status body]; [reflexivity|].
  destruct (status =? 404); [reflexivity|].
  destruct (status >=? 400); [reflexivity|].
  destruct (Decode storage.decodeGetResult body) as [result|err]; [|reflexivity].
  destruct (negb (storage.Found result)); reflexivity.
Qed.

(** C10. [GetLocation] fails with the error "location not found", and
    returns no location, both when the engine answers with status 404 and
    when it answers with a status below 400 and a body that decodes with
    [found] false. *)
Theorem C10_not_found_two_ways (es : storage.ElasticsearchStorage) (id : string)
    (w : World S) (status : Z) (body : Body) (s' : S) :
  newRequestError "GET" (docURL es id) = None →
  serve (engine w) (HttpDo "GET" (docURL es id) "" None) = (Responded status body, s') →
  status = 404
  ∨ (status < 400
     ∧ ∃ result, Decode storage.decodeGetResult body = Ok result
                 ∧ storage.Found result = false) →
  (storage.GetLocation es id w).1 = Err (errorString "location not found")
  ∧ ∀ location, (storage.GetLocation es id w).1 ≠ Ok location.
Proof.
  intros Hurl Hserve Hcase.
  assert ((storage.GetLocation es id w).1 = Err (errorString "location not found")) as Hnf.
  { rewrite (storage_GetLocation_run es id w _ s' Hurl Hserve). cbn [fst].
    destruct Hcase as [->|(Hlt & result & Hdecode & Hfound)]; [reflexivity|].
    replace (status =? 404) with false by lia.
    replace (status >=? 400) with false by lia.
    by rewrite Hdecode, Hfound. }
  split; [exact Hnf|]. intros location. by rewrite Hnf.
Qed.

End lookup.

(** An instance of C10: status 200 with [found] false is "location not
    found". *)
Lemma C10_witness :
  (storage.GetLocation
     (net := reportingAbsent)
     sampleStorage "loc_404" (emptyWorld ())).1
  = Err (errorString "location not found").
Proof.
  apply (C10_not_found_two_ways
           (net := reportingAbsent)
           sampleStorage "loc_404" (emptyWorld ()) 200
           (jsonBody (VMap {[ "found" := VBool false ]})) ()).
  - reflexivity.
  - reflexivity.
  - right. split; [lia|].
    exists {| storage.Found := false; storage.Source := zeroLocation |}.
    split; reflexivity.
Defined.

(** ** Properties of the lookup handler *)

Section lookup_handler.
Context {S : Type} {net : Network S}.

Lemma handlers_GetLocation_valid h r id w :
  handlers.Method r = "GET" →
  handlers.Vars r !! "id" = Some id →
  id ≠ "" →
  handlers.GetLocation h r w
  = let '(res, w') := storage.GetLocation (handlers.esStorage h) id w in
    match res with
    | Err err => handlers.getLocationFailed err w'
    | Ok location =>
        match marshalLocation location with
        | Err err =>
            (handlers.httpError "Internal server error" 500,
             {| engine := engine w';
                trace := trace w' ++ [Logged ("Error encoding response: " +:+ Error err)] |})
        | Ok v => (handlers.jsonReply v, w')
        end
    end.
Proof.
  intros Hmethod Hid Hne. unfold handlers.GetLocation.
  rewrite decide_False by (rewrite Hmethod; intros Hx; by apply Hx).
  rewrite Hid. cbn [from_option Datatypes.id]. rewrite decide_False by exact Hne.
  unfold mbind, io_bind.
  destruct (storage.GetLocation _ id w) as [res w'].
  destruct res as [location|err]; [|reflexivity].
  destruct (marshalLocation location); reflexivity.
Qed.

(** The handler answers 404 exactly for the errors whose message is
    "location not found". *)
Lemma getLocationFailed_reply err (w : World S) :
  (handlers.getLocationFailed err w).1
  = if decide (Error err = "location not found")
    then handlers.httpError "Location not found" 404
    else handlers.httpError "Internal server error" 500.
Proof.
  unfold handlers.getLocationFailed.
  destruct (decide (Error err = "location not found")); reflexivity.
Qed.

(** C7, as the code has it. For a lookup of a non-empty identifier:
    - when the engine answers 404, [GetLocation] fails with the error
      "location not found" and the handler answers 404;
    - when the transport fails, [GetLocation] fails with a different error,
      which wraps the cause and whose message starts with "failed to get
      location: ", and the handler answers 500;
    - the handler tells the two apart by the message: it answers 404 for an
      error if and only if the error's message is "location not found". *)
Theorem C7_not_found_told_by_message (h : handlers.Handlers) (r : handlers.Request)
    (id : string) (w : World S) :
  handlers.Method r = "GET" →
  handlers.Vars r !! "id" = Some id →
  id ≠ "" →
  newRequestError "GET" (docURL (handlers.esStorage h) id) = None →
  (∀ body s',
     serve (engine w) (HttpDo "GET" (docURL (handlers.esStorage h) id) "" None)
     = (Responded 404 body, s') →
     (storage.GetLocation (handlers.esStorage h) id w).1
     = Err (errorString "location not found")
     ∧ (handlers.GetLocation h r w).1 = handlers.httpError "Location not found" 404)
  ∧ (∀ cause s',
       serve (engine w) (HttpDo "GET" (docURL (handlers.esStorage h) id) "" None)
       = (Failed cause, s') →
       (storage.GetLocation (handlers.esStorage h) id w).1
       = Err (wrapError ("failed to get location: " +:+ Error cause) cause)
       ∧ (handlers.GetLocation h r w).1 = handlers.httpError "Internal server error" 500)
  ∧ (∀ err (w0 : World S),
       (handlers.getLocationFailed err w0).1 = handlers.httpError "Location not found" 404
       ↔ Error err = "location not found").
Proof.
  intros Hmethod Hid Hne Hurl. split; [|split].
  - intros body s' Hserve.
    rewrite (handlers_GetLocation_valid h r id w) by done.
    rewrite (storage_GetLocation_run _ id w _ s' Hurl Hserve).
    cbn -[docURL handlers.getLocationFailed].
    split; [reflexivity|]. by rewrite getLocationFailed_reply.
  - intros cause s' Hserve.
    rewrite (handlers_GetLocation_valid h r id w) by done.
    rewrite (storage_GetLocation_run _ id w _ s' Hurl Hserve).
    cbn -[docURL handlers.getLocationFailed String.app].
    split; [reflexivity|]. rewrite getLocationFailed_reply.
    by rewrite decide_False by (cbn; discriminate).
  - intros err w0. rewrite getLocationFailed_reply.
    destruct (decide (Error err = "location not found")); split; try done.
Qed.

End lookup_handler.

(** An instance of C7: a lookup in the empty store is answered with 404. *)
Lemma C7_witness :
  (storage.GetLocation (net := sampleStore)
     sampleStorage "loc_404" (emptyWorld emptyStore)).1
  = Err (errorString "location not found")
  ∧ (handlers.GetLocation (net := sampleStore)
       sampleHandlers (getLocationRequest "loc_404") (emptyWorld emptyStore)).1
    = handlers.httpError "Location not found" 404.
Proof.
  apply (proj1 (C7_not_found_told_by_message (net := sampleStore)
                  sampleHandlers (getLocationRequest "loc_404") "loc_404"
                  (emptyWorld emptyStore) eq_refl eq_refl ltac:(discriminate) eq_refl)
           (jsonBody (VMap {[ "found" := VBool false ]})) emptyStore).
  reflexivity.
Defined.

(** C7 fails as stated: the handler does not classify by the structure of
    the error.  An error that wraps the "location not found" error, which
    [errors.Is] recognises, is answered with 500; an error that wraps a
    refused connection but whose message reads "location not found", which
    [errors.Is] rejects, is answered with 404. *)
Lemma C7_classification_counterexample :
  let notFound := errorString "location not found" in
  let wrapped := Errorf_w "lookup failed: " notFound in
  let lookalike := wrapError "location not found" connectionRefused in
  Is wrapped notFound = true
  ∧ (handlers.getLocationFailed wrapped (emptyWorld ())).1
    = handlers.httpError "Internal server error" 500
  ∧ Is lookalike notFound = false
  ∧ (handlers.getLocationFailed lookalike (emptyWorld ())).1
    = handlers.httpError "Location not found" 404.
Proof.
  cbn zeta. split; [|split; [|split]].
  - vm_compute. reflexivity.
  - reflexivity.
  - vm_compute. reflexivity.
  - reflexivity.
Qed.

(** ** Properties of indexing followed by lookup *)

Lemma stripPrefix_app a p : stripPrefix a (a +:+ p) = Some p.
Proof.
  induction a as [|c a IH]; [reflexivity|].
  change (String c a +:+ p) with (String c (a +:+ p)). cbn [stripPrefix].
  by rewrite decide_True by reflexivity.
Qed.

Lemma docURL_docPath es id :
  docURL es id = storage.baseURL es +:+ docPath (storage.index es) id.
Proof. reflexivity. Qed.

Lemma docStore_index address refuse st index id body refresh :
  id ≠ "" →
  refuse "PUT" (address +:+ docPath index id) = None →
  ∃ status b,
    serve (Network := docStore address refuse) st (EsIndex index id body refresh)
    = (Responded status b,
       {| docs := <[requestPath (docPath index id) := body]> (docs st);
          unnamed := unnamed st |})
    ∧ status ≤ 299.
Proof.
  intros Hid Hput. cbn. rewrite decide_False by exact Hid. rewrite Hput.
  do 2 eexists. split; [reflexivity|]. destruct (docs st !! _); lia.
Qed.

Lemma docStore_get es refuse st id :
  serve (Network := docStore (storage.baseURL es) refuse) st
    (HttpDo "GET" (docURL es id) "" None)
  = (match docs st !! requestPath (docPath (storage.index es) id) with
     | Some doc =>
         Responded 200 (jsonBody (VMap (<["found" := VBool true]> (<["_source" := doc]> ∅))))
     | None => Responded 404 (jsonBody (VMap {[ "found" := VBool false ]}))
     end, st).
Proof.
  cbn [serve docStore]. rewrite docURL_docPath, stripPrefix_app.
  rewrite decide_True by reflexivity.
  destruct (docs st !! _); reflexivity.
Qed.

(** C6, as the code has it. Against an engine that stores a document under
    the path it is written to and serves it back, indexing a location
    succeeds and retrieving it by its identifier returns the input in every
    field, the ranking score included: a non-zero score is stored with the
    document and comes back on the fetch; a zero score is left out of the
    document and is fetched as zero.  This is so for a location whose
    identifier is not empty and, like the index, made of letters, digits,
    ['-'] and ['_'] (it is put into the URL as it is), whose floats are
    finite, whose times (in UTC) are of the years 0..9999 and whose strings
    are valid UTF-8 (any other byte would come back as U+FFFD); slices are
    compared by their elements. *)
Theorem C6_index_then_get (es : storage.ElasticsearchStorage)
    (refuse : string → string → option error) (location : Location) (w : World Store) :
  ID location ≠ "" →
  plainID (storage.index es) = true →
  plainID (ID location) = true →
  encodable location = true →
  validStrings location = true →
  refuse "PUT" (docURL es (ID location)) = None →
  refuse "GET" (docURL es (ID location)) = None →
  let '(err, w1) :=
    storage.IndexLocation (net := docStore (storage.baseURL es) refuse) es location w in
  err = None
  ∧ (storage.GetLocation (net := docStore (storage.baseURL es) refuse) es (ID location) w1).1
    = Ok (setScore location
            (if PrimFloat.eqb (Score location) 0 then 0%float else Score location))
  ∧ (PrimFloat.eqb (Score location) 0 = false →
     (storage.GetLocation (net := docStore (storage.baseURL es) refuse) es (ID location) w1).1
     = Ok location).
Proof.
  intros Hid _ _ Henc _ Hput Hget.
  destruct (decodeLocation_marshalLocation location Henc) as (v & Hv & Hdecode).
  unfold storage.IndexLocation. rewrite Hv.
  unfold mbind, io_bind, doCall.
  destruct (docStore_index (storage.baseURL es) refuse (engine w) (storage.index es)
              (ID location) v "true" Hid Hput) as (status & b & Hserve & Hstatus).
  rewrite Hserve. replace (status >? 299) with false by lia.
  cbn [mret io_ret]. split; [reflexivity|].
  erewrite storage_GetLocation_run; [|exact Hget|apply docStore_get].
  cbn [engine docs]. rewrite lookup_insert_eq. cbn [fst].
  replace (200 =? 404) with false by reflexivity.
  replace (200 >=? 400) with false by reflexivity.
  unfold Decode, jsonBody. cbn [Json].
  unfold storage.decodeGetResult, decodeStruct.
  decode_fields. rewrite Hdecode. cbn [mbind option_bind negb storage.Found storage.Source].
  split; [reflexivity|].
  intros ->. by destruct location.
Qed.

(** An instance of C6: a location with score 4.25, indexed into the empty
    store and fetched back. *)
Lemma C6_witness :
  let '(err, w1) :=
    storage.IndexLocation (net := sampleStore) sampleStorage
      (sampleLocation "loc_1" 8.5 2 4.25) (emptyWorld emptyStore) in
  err = None
  ∧ (storage.GetLocation (net := sampleStore) sampleStorage "loc_1" w1).1
    = Ok (setScore (sampleLocation "loc_1" 8.5 2 4.25) 4.25)
  ∧ (PrimFloat.eqb 4.25 0 = false →
     (storage.GetLocation (net := sampleStore) sampleStorage "loc_1" w1).1
     = Ok (sampleLocation "loc_1" 8.5 2 4.25)).
Proof.
  apply (C6_index_then_get sampleStorage acceptAll (sampleLocation "loc_1" 8.5 2 4.25)
           (emptyWorld emptyStore)).
  - discriminate.
  - reflexivity.
  - reflexivity.
  - reflexivity.
  - reflexivity.
  - reflexivity.
  - reflexivity.
Defined.

(** C6 fails as stated: a location indexed with score 4.25 is fetched with
    score 4.25, not with the score unset. *)
Lemma C6_score_persisted_counterexample :
  let location := sampleLocation "loc_1" 8.5 2 4.25 in
  let w1 := (storage.IndexLocation (net := sampleStore) sampleStorage
               location (emptyWorld emptyStore)).2 in
  let fetched :=
    (storage.GetLocation (net := sampleStore) sampleStorage "loc_1" w1).1 in
  fetched = Ok location
  ∧ Score location = 4.25%float
  ∧ fetched ≠ Ok (setScore location 0).
Proof.
  cbn zeta.
  assert ((storage.GetLocation (net := sampleStore) sampleStorage "loc_1"
             (storage.IndexLocation (net := sampleStore) sampleStorage
                (sampleLocation "loc_1" 8.5 2 4.25) (emptyWorld emptyStore)).2).1
          = Ok (sampleLocation "loc_1" 8.5 2 4.25)) as Hfetched
    by (vm_compute; reflexivity).
  split; [exact Hfetched|]. split; [reflexivity|].
  rewrite Hfetched. intros Heq.
  apply (f_equal (λ r, match r with
                       | Ok l => PrimFloat.eqb (Score l) 0
                       | Err _ => false
                       end)) in Heq.
  vm_compute in Heq. discriminate.
Qed.

(** ** Further properties of the JSON model *)

Lemma marshalFloat_Ok f v : marshalFloat f = Ok v → finite f = true.
Proof. unfold marshalFloat. by destruct (finite f). Qed.

Lemma marshalTime_Ok t v : marshalTime t = Ok v → timeInRange t = true.
Proof. unfold marshalTime. by destruct (timeInRange t). Qed.

Lemma marshalFloats_Ok l vs : marshalFloats l = Ok vs → forallb finite l = true.
Proof.
  revert vs. induction l as [|f l IH]; intros vs; [done|]. cbn [marshalFloats forallb].
  destruct (marshalFloat f) as [v|] eqn:Hf; [|done].
  destruct (marshalFloats l) as [vs'|] eqn:Hl; [|done]. intros _.
  apply marshalFloat_Ok in Hf. rewrite Hf. by apply (IH vs').
Qed.

Lemma marshalGeoPoint_Ok g v : marshalGeoPoint g = Ok v → encodableGeoPoint g = true.
Proof.
  unfold marshalGeoPoint, encodableGeoPoint.
  destruct (marshalFloat (Lat g)) eqn:H1; [|done].
  destruct (marshalFloat (Lon g)) eqn:H2; [|done]. intros _.
  by rewrite (marshalFloat_Ok _ _ H1), (marshalFloat_Ok _ _ H2).
Qed.

Lemma marshalDemographics_Ok d v :
  marshalDemographics d = Ok v → encodableDemographics d = true.
Proof.
  unfold marshalDemographics, encodableDemographics.
  destruct (marshalFloat (AverageIncome d)) eqn:H1; [|done].
  destruct (marshalFloat (PopulationDensity d)) eqn:H2; [|done]. intros _.
  by rewrite (marshalFloat_Ok _ _ H1), (marshalFloat_Ok _ _ H2).
Qed.

Lemma marshalLocation_Ok l v : marshalLocation l = Ok v → encodable l = true.
Proof.
  unfold marshalLocation, encodable.
  destruct (marshalGeoPoint (Coordinates l)) eqn:H1; [|done].
  destruct (marshalFloat (TrafficScore l)) eqn:H2; [|done].
  destruct (marshalFloat (CompetitionDensity l)) eqn:H3; [|done].
  destruct (marshalDemographics (Demographics_ l)) eqn:H4; [|done].
  destruct (marshalFloats (Embedding l)) eqn:H5; [|done].
  destruct (marshalTime (CreatedAt l)) eqn:H6; [|done].
  destruct (marshalTime (UpdatedAt l)) eqn:H7; [|done].
  destruct (marshalFloat (Score l)) eqn:H8; [|done]. intros _.
  by rewrite (marshalGeoPoint_Ok _ _ H1), (marshalFloat_Ok _ _ H2), (marshalFloat_Ok _ _ H3),
    (marshalDemographics_Ok _ _ H4), (marshalFloats_Ok _ _ H5), (marshalTime_Ok _ _ H6),
    (marshalTime_Ok _ _ H7), (marshalFloat_Ok _ _ H8).
Qed.

Lemma marshalLocation_not_encodable l :
  encodable l = false → ∃ err, marshalLocation l = Err err.
Proof.
  intros Hl. destruct (marshalLocation l) as [v|err] eqn:Hm; [|by exists err].
  apply marshalLocation_Ok in Hm. congruence.
Qed.

(** ** Further properties of indexing *)

Section indexing.
Context {S : Type} {net : Network S}.

(** What [IndexLocation] does with a location that marshals to [doc]. *)
Lemma storage_IndexLocation_run es location doc w :
  marshalLocation location = Ok doc →
  storage.IndexLocation es location w
  = (match (serve (engine w) (EsIndex (storage.index es) (ID location) doc "true")).1 with
     | Failed err => Some (Errorf_w "failed to index location: " err)
     | Responded status body =>
         if status >? 299
         then Some (errorString ("error indexing location: " +:+ Raw body))
         else None
     end,
     {| engine := (serve (engine w) (EsIndex (storage.index es) (ID location) doc "true")).2;
        trace := trace w ++ [Called (EsIndex (storage.index es) (ID location) doc "true")] |}).
Proof.
  intros Hdoc. unfold storage.IndexLocation. rewrite Hdoc.
  unfold mbind, io_bind, doCall.
  destruct (serve (engine w) _) as [res s']. cbn [fst snd].
  destruct res as [err|status body]; [reflexivity|].
  destruct (status >? 299); reflexivity.
Qed.

(** X1. [IndexLocation] makes a request exactly when the location can be
    marshalled.  A location with a float that is not finite, or a time
    outside the years 0..9999, is refused with an error whose message
    starts with "failed to marshal location: ", and the world is left as it
    was: nothing is sent to the engine. *)
Theorem X1_unmarshallable_location_not_sent (es : storage.ElasticsearchStorage)
    (location : Location) (w : World S) :
  encodable location = false →
  ∃ cause,
    marshalLocation location = Err cause
    ∧ storage.IndexLocation es location w
      = (Some (wrapError ("failed to marshal location: " +:+ Error cause) cause), w).
Proof.
  intros Hl. destruct (marshalLocation_not_encodable location Hl) as (cause & Hcause).
  exists cause. split; [exact Hcause|].
  unfold storage.IndexLocation. by rewrite Hcause.
Qed.

(** X2. For a location that can be marshalled, [IndexLocation] sends exactly
    one request: the location's document, under the storage's index and the
    location's identifier, with an immediate refresh.  It returns [nil] if
    and only if the engine answers with a status of at most 299; a
    transport failure is reported with the cause wrapped. *)
Theorem X2_index_one_request (es : storage.ElasticsearchStorage) (location : Location)
    (w : World S) :
  encodable location = true →
  ∃ doc,
    marshalLocation location = Ok doc
    ∧ trace (storage.IndexLocation es location w).2
      = trace w ++ [Called (EsIndex (storage.index es) (ID location) doc "true")]
    ∧ ((storage.IndexLocation es location w).1 = None
       ↔ ∃ status body,
           (serve (engine w) (EsIndex (storage.index es) (ID location) doc "true")).1
           = Responded status body ∧ status ≤ 299)
    ∧ ∀ cause,
        (serve (engine w) (EsIndex (storage.index es) (ID location) doc "true")).1
        = Failed cause →
        (storage.IndexLocation es location w).1
        = Some (wrapError ("failed to index location: " +:+ Error cause) cause).
Proof.
  intros Hl. destruct (decodeLocation_marshalLocation location Hl) as (doc & Hdoc & _).
  exists doc. split; [exact Hdoc|].
  rewrite (storage_IndexLocation_run es location doc w Hdoc). cbn [fst snd trace].
  split; [reflexivity|].
  destruct (serve (engine w) _).1 as [err|status body]; split.
  - split; [done|]. by intros (status & body & Hres & _).
  - by intros cause [= ->].
  - destruct (status >? 299) eqn:Hs; split; try done.
    + intros (status' & body' & [= <- <-] & Hle). lia.
    + intros _. exists status, body. split; [done|lia].
  - by intros cause.
Qed.

End indexing.

(** ** Further properties of the reference store *)

Lemma append_inj_r p a b : p +:+ a = p +:+ b → a = b.
Proof.
  induction p as [|c p IH]; [done|].
  change (String c p +:+ a) with (String c (p +:+ a)).
  change (String c p +:+ b) with (String c (p +:+ b)).
  intros [= Heq]. by apply IH.
Qed.

Lemma docPath_inj index a b : docPath index a = docPath index b → a = b.
Proof.
  unfold docPath. intros H.
  apply (append_inj_r "/") in H. apply append_inj_r in H. by apply append_inj_r in H.
Qed.

(** A path without fragment or query is requested as it is. *)
Lemma requestPath_app a b :
  requestPath a = a → requestPath (a +:+ b) = a +:+ requestPath b.
Proof.
  induction a as [|c a IH]; [done|].
  change (String c a +:+ b) with (String c (a +:+ b)). cbn [requestPath].
  destruct (decide _); [done|]. intros [= Ha]. by rewrite IH.
Qed.

Lemma requestPath_plain s : plainID s = true → requestPath s = s.
Proof.
  induction s as [|c s IH]; [done|]. cbn [plainID requestPath].
  intros [Hc Hs]%andb_true_iff. rewrite IH by done.
  destruct (decide _) as [[-> | ->]|]; [discriminate Hc|discriminate Hc|done].
Qed.

Lemma requestPath_docPath index id :
  plainID index = true → plainID id = true →
  requestPath (docPath index id) = docPath index id.
Proof.
  intros Hindex Hid. unfold docPath.
  rewrite (requestPath_app "/") by reflexivity.
  rewrite requestPath_app by (by apply requestPath_plain).
  rewrite (requestPath_app "/_doc/") by reflexivity.
  by rewrite (requestPath_plain id).
Qed.

(** Indexing into the reference store: the document is put under the path
    of the location's identifier. *)
Lemma docStore_IndexLocation es refuse location doc w :
  ID location ≠ "" →
  marshalLocation location = Ok doc →
  refuse "PUT" (docURL es (ID location)) = None →
  storage.IndexLocation (net := docStore (storage.baseURL es) refuse) es location w
  = (None,
     {| engine := {| docs := <[requestPath (docPath (storage.index es) (ID location)) := doc]>
                               (docs (engine w));
                     unnamed := unnamed (engine w) |};
        trace := trace w ++ [Called (EsIndex (storage.index es) (ID location) doc "true")] |}).
Proof.
  intros Hid Hdoc Hput.
  rewrite (storage_IndexLocation_run es location doc w Hdoc).
  destruct (docStore_index (storage.baseURL es) refuse (engine w) (storage.index es)
              (ID location) doc "true" Hid Hput) as (status & b & Hserve & Hstatus).
  rewrite Hserve. cbn [fst snd]. by replace (status >? 299) with false by lia.
Qed.

(** Looking up in the reference store: the document under the path of the
    identifier, decoded. *)
Lemma docStore_GetLocation es refuse id w :
  refuse "GET" (docURL es id) = None →
  (storage.GetLocation (net := docStore (storage.baseURL es) refuse) es id w).1
  = match docs (engine w) !! requestPath (docPath (storage.index es) id) with
    | None => Err (errorString "location not found")
    | Some doc =>
        match decodeLocation doc with
        | Some location => Ok location
        | None => Err (Errorf_w "failed to decode response: "
                         (errorString "json: cannot unmarshal value into Go value"))
        end
    end.
Proof.
  intros Hget.
  erewrite storage_GetLocation_run; [|exact Hget|apply docStore_get]. cbn [fst].
  destruct (docs (engine w) !! _) as [doc|]; [|reflexivity].
  replace (200 =? 404) with false by reflexivity.
  replace (200 >=? 400) with false by reflexivity.
  unfold Decode, jsonBody. cbn [Json].
  unfold storage.decodeGetResult, decodeStruct. decode_fields.
  destruct (decodeLocation doc); reflexivity.
Qed.


(** X3. Re-indexing under the same identifier overwrites in place: after
    indexing one location and then another with the same identifier, both
    of which can be marshalled, the store holds the same documents as if
    only the second had been indexed, at the same set of paths as after the
    first write, and a lookup returns the second location in every field.
    The identifier is not empty and, like the index, made of letters,
    digits, ['-'] and ['_']; the strings of the second location are valid
    UTF-8. *)
Theorem X3_reindex_overwrites (es : storage.ElasticsearchStorage)
    (refuse : string → string → option error) (first second : Location) (w : World Store) :
  ID first = ID second →
  ID second ≠ "" →
  plainID (storage.index es) = true →
  plainID (ID second) = true →
  encodable first = true →
  encodable second = true →
  validStrings second = true →
  refuse "PUT" (docURL es (ID second)) = None →
  refuse "GET" (docURL es (ID second)) = None →
  let w1 := (storage.IndexLocation (net := docStore (storage.baseURL es) refuse)
               es first w).2 in
  let w2 := (storage.IndexLocation (net := docStore (storage.baseURL es) refuse)
               es second w1).2 in
  engine w2
  = engine (storage.IndexLocation (net := docStore (storage.baseURL es) refuse)
              es second w).2
  ∧ dom (docs (engine w2)) = dom (docs (engine w1))
  ∧ (storage.GetLocation (net := docStore (storage.baseURL es) refuse) es (ID second) w2).1
    = Ok (setScore second
            (if PrimFloat.eqb (Score second) 0 then 0%float else Score second)).
Proof.
  intros Hsame Hid _ _ Hfirst Hsecond _ Hput Hget.
  destruct (decodeLocation_marshalLocation first Hfirst) as (doc1 & Hdoc1 & _).
  destruct (decodeLocation_marshalLocation second Hsecond) as (doc2 & Hdoc2 & Hdecode).
  cbn zeta.
  rewrite (docStore_IndexLocation es refuse first doc1 w) by (by rewrite ?Hsame).
  rewrite !(docStore_IndexLocation es refuse second doc2) by done.
  cbn [snd engine docs unnamed]. rewrite Hsame.
  split; [by rewrite insert_insert_eq|]. split.
  - rewrite !dom_insert_L. set_solver.
  - rewrite (docStore_GetLocation es refuse (ID second)) by done.
    cbn [engine docs]. by rewrite lookup_insert_eq, Hdecode.
Qed.


(** ** Further properties of the lookup handler *)

(** Marshalling does not tell a zero score from an omitted one. *)
Lemma marshalLocation_zero_score l :
  encodable l = true →
  marshalLocation (setScore l (if PrimFloat.eqb (Score l) 0 then 0%float else Score l))
  = marshalLocation l.
Proof.
  intros Hl. destruct (PrimFloat.eqb (Score l) 0) eqn:Hz; [|by destruct l].
  revert Hl. unfold encodable. rewrite !andb_true_iff.
  intros [[[[[[[Hgeo Htraffic] Hcompetition] Hdemo] Hemb] Hcreated] Hupdated] Hscore].
  unfold marshalLocation. cbn [Coordinates TrafficScore CompetitionDensity Demographics_
    Embedding CreatedAt UpdatedAt Score setScore ID Name Address Region City Description
    BusinessTypesSuitable].
  rewrite Hz. rewrite (marshalFloat_finite (Score l)) by done.
  rewrite (marshalFloat_finite 0) by reflexivity.
  replace (PrimFloat.eqb 0 0) with true by reflexivity.
  destruct (marshalGeoPoint _); [|done]. cbn [mbind result_bind].
  destruct (marshalFloat (TrafficScore l)); [|done]. cbn [mbind result_bind].
  destruct (marshalFloat (CompetitionDensity l)); [|done]. cbn [mbind result_bind].
  destruct (marshalDemographics _); [|done]. cbn [mbind result_bind].
  destruct (marshalFloats _); [|done]. cbn [mbind result_bind].
  destruct (marshalTime (CreatedAt l)); [|done]. cbn [mbind result_bind].
  destruct (marshalTime (UpdatedAt l)); [|done]. reflexivity.
Qed.

Section lookup_more.
Context {S : Type} {net : Network S}.

(** X5. [GetLocation] of the handlers contacts the engine only for a GET
    with a non-empty identifier: any other method is answered 405, and a
    missing or empty [id] route variable 400, with the world left as it
    was. *)
Theorem X5_lookup_guards (h : handlers.Handlers) (r : handlers.Request) (w : World S) :
  (handlers.Method r ≠ "GET" →
   handlers.GetLocation h r w = (handlers.httpError "Method not allowed" 405, w))
  ∧ (handlers.Method r = "GET" →
     handlers.Vars r !! "id" = None ∨ handlers.Vars r !! "id" = Some "" →
     handlers.GetLocation h r w = (handlers.httpError "Location ID is required" 400, w)).
Proof.
  split.
  - intros Hm. unfold handlers.GetLocation. by rewrite decide_True by exact Hm.
  - intros Hm Hid. unfold handlers.GetLocation.
    rewrite decide_False by (rewrite Hm; intros Hx; by apply Hx).
    destruct Hid as [-> | ->]; cbn [from_option Datatypes.id];
      by rewrite decide_True by reflexivity.
Qed.

(** X6. The handler's answer to a lookup that reaches the engine, in full:
    it is 404 exactly when the engine answered 404 or answered below 400
    with a body that decodes with [found] false; every other failure
    (transport, any other status from 400 up, a body that does not decode)
    is answered 500 with a log line; and a document that is found is
    answered with a JSON reply or, if it cannot be encoded, 500. *)
Theorem X6_lookup_answers (h : handlers.Handlers) (r : handlers.Request) (id : string)
    (w : World S) :
  handlers.Method r = "GET" →
  handlers.Vars r !! "id" = Some id →
  id ≠ "" →
  newRequestError "GET" (docURL (handlers.esStorage h) id) = None →
  let res := (serve (engine w) (HttpDo "GET" (docURL (handlers.esStorage h) id) "" None)).1 in
  let reply := (handlers.GetLocation h r w).1 in
  (reply = handlers.httpError "Location not found" 404
   ↔ ∃ status body,
       res = Responded status body
       ∧ (status = 404
          ∨ (status < 400
             ∧ ∃ result, Decode storage.decodeGetResult body = Ok result
                         ∧ storage.Found result = false)))
  ∧ (reply = handlers.httpError "Location not found" 404
     ∨ reply = handlers.httpError "Internal server error" 500
     ∨ ∃ v, reply = handlers.jsonReply v).
Proof.
  intros Hmethod Hid Hne Hurl. cbn zeta.
  rewrite (handlers_GetLocation_valid h r id w) by done.
  destruct (serve (engine w) (HttpDo "GET" (docURL (handlers.esStorage h) id) "" None))
    as [res s'] eqn:Hserve.
  rewrite (storage_GetLocation_run _ id w _ s' Hurl Hserve). cbn [fst].
  destruct res as [cause|status body].
  - rewrite getLocationFailed_reply. rewrite decide_False by (cbn; discriminate).
    split; [|by right; left]. split; [done|]. by intros (? & ? & ? & _).
  - destruct (status =? 404) eqn:H404.
    { rewrite getLocationFailed_reply, decide_True by reflexivity.
      split; [|by left]. split; [|done]. intros _. exists status, body.
      split; [done|]. left. lia. }
    destruct (status >=? 400) eqn:H400.
    { rewrite getLocationFailed_reply. rewrite decide_False by (cbn; discriminate).
      split; [|by right; left]. split; [done|].
      intros (status' & body' & [= <- <-] & [?|[? _]]); lia. }
    destruct (Decode storage.decodeGetResult body) as [result|err] eqn:Hdecode.
    + destruct (storage.Found result) eqn:Hfound; cbn [negb].
      * destruct (marshalLocation (storage.Source result)) as [v|err] eqn:Hv; cbn [fst].
        -- split; [|right; right; by exists v]. split; [done|].
           intros (status' & body' & [= <- <-] & [?|(_ & result' & Hr & Hf)]); [lia|].
           rewrite Hdecode in Hr. injection Hr as <-. congruence.
        -- split; [|by right; left]. split; [done|].
           intros (status' & body' & [= <- <-] & [?|(_ & result' & Hr & Hf)]); [lia|].
           rewrite Hdecode in Hr. injection Hr as <-. congruence.
      * rewrite getLocationFailed_reply, decide_True by reflexivity.
        split; [|by left]. split; [|done]. intros _. exists status, body.
        split; [done|]. right. split; [lia|]. by exists result.
    + rewrite getLocationFailed_reply. rewrite decide_False by (cbn; discriminate).
      split; [|by right; left]. split; [done|].
      intros (status' & body' & [= <- <-] & [?|(_ & result' & Hr & _)]); [lia|].
      rewrite Hdecode in Hr. discriminate.
Qed.

End lookup_more.

(** X7. What is indexed is what the API serves: against the reference
    store, after [IndexLocation] of a location with a non-empty identifier
    that can be marshalled, the lookup handler answers a GET for that
    identifier with the very document that was sent to the engine. *)
Theorem X7_indexed_document_served (h : handlers.Handlers)
    (refuse : string → string → option error) (location : Location) (r : handlers.Request)
    (w : World Store) :
  handlers.Method r = "GET" →
  handlers.Vars r !! "id" = Some (ID location) →
  ID location ≠ "" →
  encodable location = true →
  refuse "PUT" (docURL (handlers.esStorage h) (ID location)) = None →
  refuse "GET" (docURL (handlers.esStorage h) (ID location)) = None →
  ∃ doc,
    marshalLocation location = Ok doc
    ∧ (handlers.GetLocation
         (net := docStore (storage.baseURL (handlers.esStorage h)) refuse) h r
         (storage.IndexLocation
            (net := docStore (storage.baseURL (handlers.esStorage h)) refuse)
            (handlers.esStorage h) location w).2).1
      = handlers.jsonReply doc.
Proof.
  intros Hmethod Hvar Hid Henc Hput Hget.
  destruct (decodeLocation_marshalLocation location Henc) as (doc & Hdoc & Hdecode).
  exists doc. split; [exact Hdoc|].
  rewrite (handlers_GetLocation_valid h r (ID location)) by done.
  pose proof (docStore_GetLocation (handlers.esStorage h) refuse (ID location)
                (storage.IndexLocation
                   (net := docStore (storage.baseURL (handlers.esStorage h)) refuse)
                   (handlers.esStorage h) location w).2 Hget) as Hfetch.
  rewrite (docStore_IndexLocation _ refuse location doc w) in Hfetch |- * by done.
  cbn [snd engine docs] in Hfetch. rewrite lookup_insert_eq, Hdecode in Hfetch.
  destruct (storage.GetLocation _ _ _) as [res w']. cbn [fst] in Hfetch. subst res.
  by rewrite marshalLocation_zero_score, Hdoc.
Qed.

(** ** Further properties of the recommendation path *)

(** X8. [buildRecommendQuery] is idempotent: building again from the request
    the first call leaves behind gives the same query and leaves that
    request as it is.  In particular the request the handler passes down,
    whose limit it has already defaulted, is never changed by the builder. *)
Theorem X8_builder_idempotent (req : RecommendRequest) :
  storage.buildRecommendQuery (storage.buildRecommendQuery req).2
  = ((storage.buildRecommendQuery req).1, (storage.buildRecommendQuery req).2)
  ∧ (storage.buildRecommendQuery
       (if decide (reqLimit req = 0) then setLimit req 20 else req)).2
    = (if decide (reqLimit req = 0) then setLimit req 20 else req).
Proof.
  assert (∀ r, reqLimit r ≠ 0 →
            storage.buildRecommendQuery r = ((storage.buildRecommendQuery r).1, r)) as Hfix.
  { intros r Hr. unfold storage.buildRecommendQuery at 1. cbn zeta.
    rewrite (decide_False (P := reqLimit r = 0)) by exact Hr. reflexivity. }
  split.
  - assert (reqLimit (storage.buildRecommendQuery req).2 ≠ 0) as Hnz.
    { rewrite buildRecommendQuery_limit. destruct (decide (reqLimit req = 0)); lia. }
    rewrite (Hfix _ Hnz) at 1. f_equal.
    unfold storage.buildRecommendQuery at 2. cbn [snd].
    destruct (decide (reqLimit req = 0)); [|reflexivity].
    apply buildRecommendQuery_query_setLimit.
  - destruct (decide (reqLimit req = 0)) as [Hz|Hnz].
    + by rewrite (Hfix (setLimit req 20)) by (cbn; lia).
    + by rewrite (Hfix req Hnz).
Qed.

Section recommend_more.
Context {S : Type} {net : Network S}.

(** X9. [RecommendLocations] of the handlers contacts the engine only for a
    POST whose body decodes: any other method is answered 405 and a body
    that is not JSON, or not of the request's shape, 400, with the world
    left as it was. *)
Theorem X9_recommend_guards (h : handlers.Handlers) (r : handlers.Request) (w : World S) :
  (handlers.Method r ≠ "POST" →
   handlers.RecommendLocations h r w = (handlers.httpError "Method not allowed" 405, w))
  ∧ (handlers.Method r = "POST" →
     (∀ req, Decode decodeRecommendRequest (handlers.RequestBody r) ≠ Ok req) →
     handlers.RecommendLocations h r w = (handlers.httpError "Invalid request body" 400, w)).
Proof.
  split.
  - intros Hm. unfold handlers.RecommendLocations. by rewrite decide_True by exact Hm.
  - intros Hm Hbody. unfold handlers.RecommendLocations.
    rewrite decide_False by (rewrite Hm; intros Hx; by apply Hx).
    destruct (Decode decodeRecommendRequest (handlers.RequestBody r)) as [req|err];
      [by destruct (Hbody req)|reflexivity].
Qed.

(** The errors of the storage's [RecommendLocations]. *)
Lemma storage_RecommendLocations_failed es req w :
  newRequestError "POST"
    (searchURL es (if decide (reqLimit req = 0) then 20 else reqLimit req)) = None →
  (storage.RecommendLocations es req w).1.1
  = match (serve (engine w) (searchCall es req)).1 with
    | Failed cause => Err (Errorf_w "failed to search: " cause)
    | Responded status body =>
        if status >=? 400
        then Err (errorString ("error searching: status " +:+ fmt_d status
                               +:+ ", body: " +:+ Raw body))
        else match Decode storage.decodeSearchResult body with
             | Err err => Err (Errorf_w "failed to decode response: " err)
             | Ok result => Ok (storage.locationOfHit <$> storage.Hits result)
             end
    end.
Proof.
  intros Hurl. unfold storage.RecommendLocations.
  pose proof (buildRecommendQuery_limit req) as Hlim.
  unfold searchCall.
  destruct (storage.buildRecommendQuery req) as [q req'] eqn:Hb. cbn in Hlim.
  fold (searchURL es (reqLimit req')). rewrite Hlim, Hurl. cbn [fst].
  unfold mbind, io_bind, doCall.
  destruct (serve (engine w) _) as [res s']. cbn [fst].
  destruct res as [err|status body]; [reflexivity|].
  destruct (status >=? 400); [reflexivity|].
  destruct (Decode storage.decodeSearchResult body); reflexivity.
Qed.

(** X10. When the search fails, the handler answers 500 with the fixed text
    "Internal server error" (the cause is not shown to the caller), after
    exactly one request to the engine and one log line, which carries the
    error of the storage: "failed to search: " and the text of the transport
    error on a transport failure; the status and the text of the body on a
    status from 400 up; "failed to decode response: " and the decoder's
    error on a body that does not decode. *)
Theorem X10_search_failure_is_500 (h : handlers.Handlers) (r : handlers.Request)
    (req : RecommendRequest) (w : World S) :
  handlers.Method r = "POST" →
  Decode decodeRecommendRequest (handlers.RequestBody r) = Ok req →
  reqRegion req ≠ "" →
  reqBusinessType req ≠ "" →
  newRequestError "POST"
    (searchURL (handlers.esStorage h)
       (if decide (reqLimit req = 0) then 20 else reqLimit req)) = None →
  let answer := (serve (engine w) (searchCall (handlers.esStorage h) req)).1 in
  let failed (cause : string) :=
    (handlers.RecommendLocations h r w).1 = handlers.httpError "Internal server error" 500
    ∧ trace (handlers.RecommendLocations h r w).2
      = trace w ++ [Called (searchCall (handlers.esStorage h) req);
                    Logged ("Error recommending locations: " +:+ cause)] in
  (∀ err, answer = Failed err → failed ("failed to search: " +:+ Error err))
  ∧ (∀ status body, answer = Responded status body → 400 ≤ status →
       failed ("error searching: status " +:+ fmt_d status +:+ ", body: " +:+ Raw body))
  ∧ (∀ status body err, answer = Responded status body → status < 400 →
       Decode storage.decodeSearchResult body = Err err →
       failed ("failed to decode response: " +:+ Error err)).
Proof.
  intros Hmethod Hdecode Hregion Hbusiness Hurl. cbn zeta.
  rewrite (handlers_RecommendLocations_valid h r req w) by done.
  set (req0 := if decide (reqLimit req = 0) then setLimit req 20 else req).
  assert (searchCall (handlers.esStorage h) req0 = searchCall (handlers.esStorage h) req)
    as Hcall by apply searchCall_defaulted.
  assert (newRequestError "POST"
            (searchURL (handlers.esStorage h)
               (if decide (reqLimit req0 = 0) then 20 else reqLimit req0)) = None) as Hurl0.
  { pose proof (limit_defaulted req) as Hlim. cbn zeta in Hlim. fold req0 in Hlim.
    rewrite Hlim. exact Hurl. }
  destruct (storage_RecommendLocations_trace (handlers.esStorage h) req0 w Hurl0)
    as [Htrace _]. cbn zeta in Htrace.
  pose proof (storage_RecommendLocations_failed (handlers.esStorage h) req0 w Hurl0) as Hres.
  rewrite Hcall in Htrace, Hres.
  destruct (storage.RecommendLocations _ req0 w) as [[res req'] w'].
  cbn [fst snd] in Htrace, Hres. subst res.
  split; [|split].
  - intros err ->. cbn [fst snd trace]. split; [reflexivity|].
    by rewrite Htrace, <- app_assoc.
  - intros status body -> Hstatus. replace (status >=? 400) with true by lia.
    cbn [fst snd trace]. split; [reflexivity|]. by rewrite Htrace, <- app_assoc.
  - intros status body err -> Hstatus ->. replace (status >=? 400) with false by lia.
    cbn [fst snd trace]. split; [reflexivity|]. by rewrite Htrace, <- app_assoc.
Qed.

End recommend_more.


(** ** Properties of index creation *)

Section create_index.
Context {S : Type} {ix : Indices S}.

(** What [CreateIndex] does, by the answers to its requests. *)
Lemma storage_CreateIndex_run es mapping (w : World (Recorded S IndicesCall)) :
  storage.CreateIndex es mapping w
  = let '(checked, s1) := serveIndices (inner (engine w)) (IndicesExists [storage.index es]) in
    let w1 := {| engine := {| inner := s1;
                              calls := calls (engine w) ++ [IndicesExists [storage.index es]] |};
                 trace := trace w |} in
    match checked with
    | Failed err => (Some (Errorf_w "failed to check index existence: " err), w1)
    | Responded status _ =>
        if status =? 200 then (None, w1)
        else
          let '(created, s2) :=
            serveIndices s1 (IndicesCreate (storage.index es) mapping) in
          (match created with
           | Failed err => Some (Errorf_w "failed to create index: " err)
           | Responded status body =>
               if status >? 299
               then Some (errorString ("error creating index: " +:+ Raw body))
               else None
           end,
           {| engine := {| inner := s2;
                           calls := calls (engine w)
                                    ++ [IndicesExists [storage.index es];
                                        IndicesCreate (storage.index es) mapping] |};
              trace := trace w |})
    end.
Proof.
  unfold storage.CreateIndex, mbind, io_bind, doIndices.
  destruct (serveIndices (inner (engine w)) _) as [checked s1].
  destruct checked as [err|status body]; [reflexivity|].
  destruct (status =? 200); [reflexivity|]. cbn [engine inner calls trace].
  destruct (serveIndices s1 _) as [created s2]. rewrite <- app_assoc.
  destruct created as [err|status' body']; [reflexivity|].
  destruct (status' >? 299); reflexivity.
Qed.

(** X12. The requests of [CreateIndex].  When the existence check answers
    200, [CreateIndex] returns [nil] without trying to create the index: the
    check is the only request, and the mapping is not used.  When the check
    answers with any other status (404, but a server error too), it asks
    the engine to create the index with the given mapping, right after the
    check, and returns [nil] if and only if the engine answers that request
    with a status of at most 299. *)
Theorem X12_create_index_requests (es : storage.ElasticsearchStorage)
    (mapping : string) (w : World (Recorded S IndicesCall)) (status : Z) (body : Body)
    (s' : S) :
  serveIndices (inner (engine w)) (IndicesExists [storage.index es])
  = (Responded status body, s') →
  (status = 200 →
   storage.CreateIndex es mapping w
   = (None,
      {| engine := {| inner := s';
                      calls := calls (engine w) ++ [IndicesExists [storage.index es]] |};
         trace := trace w |}))
  ∧ (status ≠ 200 →
     calls (engine (storage.CreateIndex es mapping w).2)
     = calls (engine w) ++ [IndicesExists [storage.index es];
                            IndicesCreate (storage.index es) mapping]
     ∧ trace (storage.CreateIndex es mapping w).2 = trace w
     ∧ ((storage.CreateIndex es mapping w).1 = None
        ↔ ∃ status' body',
            (serveIndices s' (IndicesCreate (storage.index es) mapping)).1
            = Responded status' body' ∧ status' ≤ 299)).
Proof.
  intros Hcheck. rewrite storage_CreateIndex_run, Hcheck. split.
  - intros ->. reflexivity.
  - intros Hstatus. replace (status =? 200) with false by lia.
    destruct (serveIndices s' _) as [created s2]. cbn [fst snd engine calls trace].
    split; [reflexivity|]. split; [reflexivity|].
    destruct created as [err|status' body'].
    + split; [done|]. by intros (? & ? & ? & _).
    + destruct (status' >? 299) eqn:Hs; split; try done.
      * intros (? & ? & [= <- <-] & ?). lia.
      * intros _. exists status', body'. split; [done|lia].
Qed.

End create_index.

Lemma indexRegistry_exists st index :
  serveIndices (Indices := indexRegistry) st (IndicesExists [index])
  = (Responded (if st !! index is Some _ then 200 else 404) {| Raw := ""; Json := None |}, st).
Proof.
  cbn [serveIndices indexRegistry forallb]. rewrite andb_true_r.
  destruct (st !! index) as [m|].
  - by rewrite bool_decide_eq_true_2 by eauto.
  - rewrite bool_decide_eq_false_2; [done|]. by intros [? ?].
Qed.

(** X13. Against a registry of indices, [CreateIndex] succeeds and leaves
    the index in place with the mapping it was first created with: an index
    that is missing is created with the given mapping, one that is there
    keeps its mapping whatever mapping is passed, and a second call changes
    nothing in the registry. *)
Theorem X13_create_index_idempotent (es : storage.ElasticsearchStorage)
    (mapping mapping' : string) (w : World (Recorded (gmap string string) IndicesCall)) :
  let w1 := (storage.CreateIndex (ix := indexRegistry) es mapping w).2 in
  (storage.CreateIndex (ix := indexRegistry) es mapping w).1 = None
  ∧ inner (engine w1) !! storage.index es
    = Some (default mapping (inner (engine w) !! storage.index es))
  ∧ (∀ other, other ≠ storage.index es →
       inner (engine w1) !! other = inner (engine w) !! other)
  ∧ (storage.CreateIndex (ix := indexRegistry) es mapping' w1).1 = None
  ∧ inner (engine (storage.CreateIndex (ix := indexRegistry) es mapping' w1).2)
    = inner (engine w1).
Proof.
  cbn zeta.
  assert (∀ m (v : World (Recorded (gmap string string) IndicesCall)),
            (storage.CreateIndex (ix := indexRegistry) es m v).1 = None
            ∧ inner (engine (storage.CreateIndex (ix := indexRegistry) es m v).2)
              = match inner (engine v) !! storage.index es with
                | Some _ => inner (engine v)
                | None => <[storage.index es := m]> (inner (engine v))
                end) as Hrun.
  { intros m v. rewrite storage_CreateIndex_run, indexRegistry_exists.
    destruct (inner (engine v) !! storage.index es) as [old|] eqn:Hold.
    - replace (200 =? 200) with true by reflexivity. done.
    - replace (404 =? 200) with false by reflexivity.
      cbn [serveIndices indexRegistry]. rewrite Hold. cbn. done. }
  destruct (Hrun mapping w) as [Hnil Hstate].
  split; [exact Hnil|].
  assert (inner (engine (storage.CreateIndex (ix := indexRegistry) es mapping w).2)
          !! storage.index es
          = Some (default mapping (inner (engine w) !! storage.index es))) as Hthere.
  { rewrite Hstate. destruct (inner (engine w) !! storage.index es) as [old|] eqn:Hold.
    - by rewrite Hold.
    - by rewrite lookup_insert_eq. }
  split; [exact Hthere|]. split.
  - intros other Hother. rewrite Hstate.
    destruct (inner (engine w) !! storage.index es); [done|].
    by rewrite lookup_insert_ne.
  - destruct (Hrun mapping' (storage.CreateIndex (ix := indexRegistry) es mapping w).2)
      as [Hnil' Hstate'].
    split; [exact Hnil'|]. by rewrite Hstate', Hthere.
Qed.

(** ** Properties of bulk indexing *)

Lemma sourceOf_encodable l : encodable l = true → marshalLocation l = Ok (sourceOf l).
Proof.
  intros Hl. destruct (decodeLocation_marshalLocation l Hl) as (doc & Hdoc & _).
  unfold sourceOf. by rewrite Hdoc.
Qed.

Lemma bulkLines_encodable index ls buf :
  Forall (λ l, encodable l = true) ls →
  storage.bulkLines index ls buf
  = Ok (buf ++ bulkPayload index ls).
Proof.
  intros Hls. revert buf. induction Hls as [|l ls Hl _ IH]; intros buf.
  - cbn. by rewrite app_nil_r.
  - cbn [storage.bulkLines bulkPayload]. rewrite (sourceOf_encodable l Hl), IH.
    by rewrite <- app_assoc.
Qed.

Lemma bulkLines_not_encodable index ls buf :
  Exists (λ l, encodable l = false) ls →
  ∃ cause, storage.bulkLines index ls buf
           = Err (wrapError ("failed to encode location: " +:+ Error cause) cause).
Proof.
  intros Hls. revert buf. induction ls as [|l ls IH]; intros buf; [by inversion Hls|].
  cbn [storage.bulkLines].
  destruct (marshalLocation l) as [doc|cause] eqn:Hl; [|by exists cause].
  apply IH. inversion Hls as [? ? Hbad|]; subst; [|done].
  apply marshalLocation_Ok in Hl. congruence.
Qed.

Lemma bulkPayload_length index ls : length (bulkPayload index ls) = (2 * length ls)%nat.
Proof. induction ls as [|l ls IH]; [done|]. cbn [bulkPayload length]. lia. Qed.

Section bulk.
Context {S : Type} {net : Network S}.

(** X14. For locations that can all be marshalled, [BulkIndexLocations]
    sends exactly one request, a POST of newline-delimited JSON to [/_bulk]
    under the base URL, with two lines per location in the order given: an
    action line naming the storage's index and the location's identifier,
    then the location's document.  For no locations at all the request is
    still sent, with no lines.  The call returns [nil] if and only if the
    engine answers with a status below 400, whatever the body says. *)
Theorem X14_bulk_one_request (es : storage.ElasticsearchStorage) (locations : list Location)
    (w : World S) :
  Forall (λ l, encodable l = true) locations →
  newRequestError "POST" (storage.baseURL es +:+ "/_bulk") = None →
  let call := HttpDo "POST" (storage.baseURL es +:+ "/_bulk") "application/x-ndjson"
                (Some (VList (bulkPayload (storage.index es) locations))) in
  length (bulkPayload (storage.index es) locations) = (2 * length locations)%nat
  ∧ trace (storage.BulkIndexLocations es locations w).2 = trace w ++ [Called call]
  ∧ engine (storage.BulkIndexLocations es locations w).2 = (serve (engine w) call).2
  ∧ ((storage.BulkIndexLocations es locations w).1 = None
     ↔ ∃ status body, (serve (engine w) call).1 = Responded status body ∧ status < 400).
Proof.
  intros Hls Hurl. cbn zeta. split; [apply bulkPayload_length|].
  unfold storage.BulkIndexLocations.
  rewrite (bulkLines_encodable _ _ [] Hls), app_nil_l, Hurl.
  unfold mbind, io_bind, doCall.
  destruct (serve (engine w) _) as [res s']. cbn [fst snd].
  destruct res as [cause|status body].
  - repeat split; try done. by intros (? & ? & ? & _).
  - destruct (status >=? 400) eqn:Hs; repeat split; try done.
    + intros (? & ? & [= <- <-] & ?). lia.
    + intros _. exists status, body. split; [done|lia].
Qed.

(** X15. If one of the locations cannot be marshalled, [BulkIndexLocations]
    sends nothing, not even the locations before it: it returns an error
    whose message starts with "failed to encode location: " and leaves the
    world as it was. *)
Theorem X15_bulk_all_or_nothing (es : storage.ElasticsearchStorage)
    (locations : list Location) (w : World S) :
  Exists (λ l, encodable l = false) locations →
  ∃ cause,
    storage.BulkIndexLocations es locations w
    = (Some (wrapError ("failed to encode location: " +:+ Error cause) cause), w).
Proof.
  intros Hls. destruct (bulkLines_not_encodable (storage.index es) locations [] Hls)
    as (cause & Hcause).
  exists cause. unfold storage.BulkIndexLocations. by rewrite Hcause.
Qed.

End bulk.

(** The store after the lines of a bulk request for named locations. *)
Lemma applyBulk_payload index ls st :
  Forall (λ l, ID l ≠ "") ls →
  applyBulk (bulkPayload index ls) st
  = {| docs := foldl (λ m l, <[docPath index (ID l) := sourceOf l]> m) (docs st) ls;
       unnamed := unnamed st |}.
Proof.
  intros Hls. revert st. induction Hls as [|l ls Hl _ IH]; intros st; [by destruct st|].
  cbn [bulkPayload app applyBulk foldl].
  replace (bulkTarget _) with (Some (index, ID l)) by reflexivity.
  rewrite decide_False by exact Hl. by rewrite IH.
Qed.

Lemma foldl_insert_other index (ls : list Location) (m : gmap string Value) path :
  path ∉ (λ l, docPath index (ID l)) <$> ls →
  foldl (λ m l, <[docPath index (ID l) := sourceOf l]> m) m ls !! path = m !! path.
Proof.
  revert m. induction ls as [|l ls IH]; intros m Hpath; [done|].
  cbn [foldl]. rewrite fmap_cons, not_elem_of_cons in Hpath.
  destruct Hpath as [Hne Hrest]. rewrite IH by done. by rewrite lookup_insert_ne.
Qed.

Lemma foldl_insert_lookup index (ls : list Location) (m : gmap string Value) l :
  NoDup (ID <$> ls) →
  l ∈ ls →
  foldl (λ m l, <[docPath index (ID l) := sourceOf l]> m) m ls !! docPath index (ID l)
  = Some (sourceOf l).
Proof.
  revert m. induction ls as [|a ls IH]; intros m Hnodup Hin; [by apply elem_of_nil in Hin|].
  rewrite fmap_cons, NoDup_cons in Hnodup. destruct Hnodup as [Hfresh Hnodup].
  cbn [foldl]. apply elem_of_cons in Hin as [->|Hin]; [|by apply IH].
  rewrite foldl_insert_other; [by rewrite lookup_insert_eq|].
  intros (b & Hpath & Hb)%list_elem_of_fmap. apply docPath_inj in Hpath.
  apply Hfresh. rewrite Hpath. by apply list_elem_of_fmap_2.
Qed.

(** X16. Bulk indexing and lookup agree: against the reference store with
    the bulk API, after [BulkIndexLocations] of locations that can be
    marshalled and have non-empty, pairwise different identifiers, the call
    has returned [nil], and a lookup of any of them whose identifier (like
    the index) is made of letters, digits, ['-'] and ['_'] and whose strings
    are valid UTF-8 returns it in every field (a zero score being fetched as
    zero).  (A bulk request names the identifier in its body, a lookup in
    the URL, where an identifier is cut at a ['#'] or ['?'].) *)
Theorem X16_bulk_then_get (es : storage.ElasticsearchStorage)
    (refuse : string → string → option error) (locations : list Location)
    (location : Location) (w : World Store) :
  Forall (λ l, encodable l = true) locations →
  Forall (λ l, ID l ≠ "") locations →
  NoDup (ID <$> locations) →
  location ∈ locations →
  validStrings location = true →
  plainID (storage.index es) = true →
  plainID (ID location) = true →
  refuse "POST" (storage.baseURL es +:+ "/_bulk") = None →
  refuse "GET" (docURL es (ID location)) = None →
  let '(err, w1) :=
    storage.BulkIndexLocations (net := bulkStore (storage.baseURL es) refuse)
      es locations w in
  err = None
  ∧ (storage.GetLocation (net := bulkStore (storage.baseURL es) refuse)
       es (ID location) w1).1
    = Ok (setScore location
            (if PrimFloat.eqb (Score location) 0 then 0%float else Score location)).
Proof.
  intros Henc Hids Hnodup Hin _ Hindex Hplain Hpost Hget.
  unfold storage.BulkIndexLocations.
  rewrite (bulkLines_encodable _ _ [] Henc), app_nil_l.
  change (newRequestError "POST" (storage.baseURL es +:+ "/_bulk"))
    with (refuse "POST" (storage.baseURL es +:+ "/_bulk")).
  rewrite Hpost. unfold mbind, io_bind, doCall.
  cbn [serve bulkStore]. rewrite decide_True by done.
  replace (200 >=? 400) with false by reflexivity.
  cbn [mret io_ret]. split; [reflexivity|].
  erewrite (storage_GetLocation_run (net := bulkStore (storage.baseURL es) refuse));
    [|exact Hget|apply (docStore_get es refuse)].
  cbn [engine fst]. rewrite (applyBulk_payload _ _ _ Hids). cbn [docs].
  rewrite requestPath_docPath by done.
  rewrite (foldl_insert_lookup _ _ _ location Hnodup Hin).
  replace (200 =? 404) with false by reflexivity.
  replace (200 >=? 400) with false by reflexivity.
  unfold Decode, jsonBody. cbn [Json].
  unfold storage.decodeGetResult, decodeStruct. decode_fields.
  assert (encodable location = true) as Hl
    by (by apply (proj1 (Forall_forall _ _) Henc)).
  destruct (decodeLocation_marshalLocation location Hl) as (doc & Hdoc & Hdecode).
  rewrite (sourceOf_encodable location Hl) in Hdoc. injection Hdoc as <-.
  by rewrite Hdecode.
Qed.

(** ** Properties of the configuration *)

Lemma getEnv_spec env key defaultValue :
  config.getEnv env key defaultValue
  = match env !! key with
    | Some value => if decide (value = "") then defaultValue else value
    | None => defaultValue
    end.
Proof.
  unfold config.getEnv. destruct (env !! key) as [value|]; cbn [from_option Datatypes.id].
  - rewrite if_ne. by destruct (decide (value = "")).
  - by rewrite decide_False by (intros Hx; by apply Hx).
Qed.

Lemma getEnv_nonempty env key defaultValue :
  defaultValue ≠ "" → config.getEnv env key defaultValue ≠ "".
Proof.
  intros Hd. rewrite getEnv_spec. destruct (env !! key) as [value|]; [|done].
  by destruct (decide (value = "")).
Qed.

(** X17. No setting is ever empty: whatever the environment, each of the
    seven fields [Load] returns is a non-empty string (a variable that is
    unset or empty gives way to its default). *)
Theorem X17_settings_never_empty (env : gmap string string) :
  let cfg := config.Load env in
  config.ElasticsearchURL cfg ≠ ""
  ∧ config.PostgresHost cfg ≠ ""
  ∧ config.PostgresPort cfg ≠ ""
  ∧ config.PostgresUser cfg ≠ ""
  ∧ config.PostgresPassword cfg ≠ ""
  ∧ config.PostgresDB cfg ≠ ""
  ∧ config.AppPort cfg ≠ "".
Proof. cbn. repeat split; by apply getEnv_nonempty. Qed.

(** X18. A variable set to the empty string counts as unset: [Load] gives the
    same configuration whether a variable is empty or removed from the
    environment; and of the environment it reads the seven variables only. *)
Theorem X18_empty_variable_is_unset (env : gmap string string) (key : string) :
  config.Load (<[key := ""]> env) = config.Load (delete key env)
  ∧ ∀ value,
      key ∉ ["ELASTICSEARCH_URL"; "POSTGRES_HOST"; "POSTGRES_PORT"; "POSTGRES_USER";
             "POSTGRES_PASSWORD"; "POSTGRES_DB"; "APP_PORT"] →
      config.Load (<[key := value]> env) = config.Load env.
Proof.
  assert (∀ k d, config.getEnv (<[key := ""]> env) k d = config.getEnv (delete key env) k d)
    as Hempty.
  { intros k d. rewrite !getEnv_spec. destruct (decide (key = k)) as [->|Hk].
    - by rewrite lookup_insert_eq, lookup_delete_eq.
    - by rewrite lookup_insert_ne, lookup_delete_ne. }
  split.
  - unfold config.Load. by rewrite !Hempty.
  - intros value Hkey. unfold config.Load.
    assert (∀ k d, k ∈ ["ELASTICSEARCH_URL"; "POSTGRES_HOST"; "POSTGRES_PORT";
                        "POSTGRES_USER"; "POSTGRES_PASSWORD"; "POSTGRES_DB"; "APP_PORT"] →
               config.getEnv (<[key := value]> env) k d = config.getEnv env k d) as Hother.
    { intros k d Hk. rewrite !getEnv_spec, lookup_insert_ne; [done|].
      intros ->. by apply Hkey. }
    rewrite !Hother; [done|..]; set_solver.
Qed.

(** X19. The default base URL of [NewElasticsearchStorage] is the default
    search-engine URL of the configuration: when ELASTICSEARCH_URL is unset
    or empty, the storage built from the loaded URL is the one
    [NewElasticsearchStorage] builds. *)
Theorem X19_default_url_agrees (env : gmap string string) (index : string) :
  env !! "ELASTICSEARCH_URL" = None ∨ env !! "ELASTICSEARCH_URL" = Some "" →
  storage.NewElasticsearchStorageWithURL index (config.ElasticsearchURL (config.Load env))
  = storage.NewElasticsearchStorage index.
Proof.
  intros Hunset. unfold storage.NewElasticsearchStorage. f_equal.
  cbn [config.Load config.ElasticsearchURL]. rewrite getEnv_spec.
  by destruct Hunset as [-> | ->].
Qed.

(** ** Properties of the reference store client *)

Section reference_store.
Context {D R : Type} {db : Database D R}.

Lemma scanBusinessTypes_acc rows acc :
  storage.scanBusinessTypes rows acc
  = match storage.scanBusinessTypes rows [] with
    | Ok l => Ok (acc ++ l)
    | Err err => Err err
    end.
Proof.
  revert acc. induction rows as [|row rows IH]; intros acc.
  - cbn. by rewrite app_nil_r.
  - cbn [storage.scanBusinessTypes].
    destruct (scanBusinessType row) as [[[[[id name] description] created] updated]|err];
      [|done].
    rewrite IH. cbn [app]. rewrite (IH [_]).
    destruct (storage.scanBusinessTypes rows []); [|done]. by rewrite <- app_assoc.
Qed.

Lemma scanBusinessTypes_Ok rows bts :
  storage.scanBusinessTypes rows [] = Ok bts ↔ Forall2 scannedAs rows bts.
Proof.
  revert bts. induction rows as [|row rows IH]; intros bts.
  - cbn. split; [intros [= <-]; constructor|by inversion 1].
  - cbn [storage.scanBusinessTypes]. unfold scannedAs at 1.
    destruct (scanBusinessType row) as [[[[[id name] description] created] updated]|err]
      eqn:Hrow.
    + rewrite scanBusinessTypes_acc. cbn [app]. split.
      * destruct (storage.scanBusinessTypes rows []) as [l|] eqn:Hrows; [|done].
        intros [= <-]. constructor; [exact Hrow|]. by apply IH.
      * inversion 1 as [|? bt ? l Hbt Hrest]; subst. unfold scannedAs in Hbt.
        rewrite Hrow in Hbt. injection Hbt as -> -> -> -> ->.
        apply IH in Hrest. rewrite Hrest. by destruct bt.
    + split; [done|]. inversion 1 as [|? bt ? l Hbt Hrest]; subst.
      unfold scannedAs in Hbt. congruence.
Qed.

Lemma scanBusinessTypes_first_failure good bad rest bts cause :
  Forall2 scannedAs good bts →
  scanBusinessType bad = Err cause →
  storage.scanBusinessTypes (good ++ bad :: rest) []
  = Err (wrapError ("failed to scan business type: " +:+ Error cause) cause).
Proof.
  intros Hgood Hbad. induction Hgood as [|row bt good bts Hrow _ IH].
  - cbn. by rewrite Hbad.
  - cbn [app storage.scanBusinessTypes]. unfold scannedAs in Hrow. rewrite Hrow.
    rewrite scanBusinessTypes_acc. by rewrite IH.
Qed.

Lemma storage_GetBusinessTypes_run (w : World (Recorded D string)) :
  storage.GetBusinessTypes w
  = (match (queryContext (inner (engine w)) businessTypesQuery).1 with
     | Err err => Err (Errorf_w "failed to query business types: " err)
     | Ok rows =>
         match storage.scanBusinessTypes (fetched rows) [] with
         | Err err => Err err
         | Ok businessTypes =>
             match iterationError rows with
             | Some err => Err (Errorf_w "error iterating rows: " err)
             | None => Ok businessTypes
             end
         end
     end,
     {| engine := {| inner := (queryContext (inner (engine w)) businessTypesQuery).2;
                     calls := calls (engine w) ++ [businessTypesQuery] |};
        trace := trace w |}).
Proof.
  unfold storage.GetBusinessTypes, mbind, io_bind, doQuery. fold businessTypesQuery.
  destruct (queryContext _ _) as [res d']. cbn [fst snd].
  destruct res as [rows|err]; [|reflexivity].
  destruct (storage.scanBusinessTypes _ _); [|reflexivity].
  destruct (iterationError rows); reflexivity.
Qed.

Lemma scanRegions_acc rows acc :
  storage.scanRegions rows acc
  = match storage.scanRegions rows [] with
    | Ok l => Ok (acc ++ l)
    | Err err => Err err
    end.
Proof.
  revert acc. induction rows as [|row rows IH]; intros acc.
  - cbn. by rewrite app_nil_r.
  - cbn [storage.scanRegions].
    destruct (scanRegion row) as [[[[[id name] parent] created] updated]|err]; [|done].
    rewrite IH. cbn [app]. rewrite (IH [_]).
    destruct (storage.scanRegions rows []); [|done]. by rewrite <- app_assoc.
Qed.

Lemma scanRegions_Ok rows regions :
  storage.scanRegions rows [] = Ok regions ↔ Forall2 scannedAsRegion rows regions.
Proof.
  revert regions. induction rows as [|row rows IH]; intros regions.
  - cbn. split; [intros [= <-]; constructor|by inversion 1].
  - cbn [storage.scanRegions]. unfold scannedAsRegion at 1.
    destruct (scanRegion row) as [[[[[id name] parent] created] updated]|err] eqn:Hrow.
    + rewrite scanRegions_acc. cbn [app]. split.
      * destruct (storage.scanRegions rows []) as [l|] eqn:Hrows; [|done].
        intros [= <-]. constructor; [by exists parent|]. by apply IH.
      * inversion 1 as [|? r ? l Hregion Hrest]; subst.
        destruct Hregion as (parent' & Hr & Hparent).
        rewrite Hrow in Hr. injection Hr as -> -> -> -> ->.
        apply IH in Hrest. rewrite Hrest. rewrite <- Hparent. by destruct r.
    + split; [done|]. inversion 1 as [|? r ? l Hregion Hrest]; subst.
      destruct Hregion as (parent' & Hr & _). congruence.
Qed.

Lemma storage_GetRegions_run (w : World (Recorded D string)) :
  storage.GetRegions w
  = (match (queryContext (inner (engine w)) regionsQuery).1 with
     | Err err => Err (Errorf_w "failed to query regions: " err)
     | Ok rows =>
         match storage.scanRegions (fetched rows) [] with
         | Err err => Err err
         | Ok regions =>
             match iterationError rows with
             | Some err => Err (Errorf_w "error iterating rows: " err)
             | None => Ok regions
             end
         end
     end,
     {| engine := {| inner := (queryContext (inner (engine w)) regionsQuery).2;
                     calls := calls (engine w) ++ [regionsQuery] |};
        trace := trace w |}).
Proof.
  unfold storage.GetRegions, mbind, io_bind, doQuery. fold regionsQuery.
  destruct (queryContext _ _) as [res d']. cbn [fst snd].
  destruct res as [rows|err]; [|reflexivity].
  destruct (storage.scanRegions _ _); [|reflexivity].
  destruct (iterationError rows); reflexivity.
Qed.

(** X20. [GetBusinessTypes] makes exactly one query, and it succeeds if and
    only if the query succeeds, every row scans and the iteration ends
    without an error; the business types it then returns are the rows, one
    for one and in the order the database returned them, each holding what
    its row's scan gave. *)
Theorem X20_business_types_are_the_rows (w : World (Recorded D string))
    (businessTypes : list BusinessType) :
  calls (engine (storage.GetBusinessTypes w).2) = calls (engine w) ++ [businessTypesQuery]
  ∧ trace (storage.GetBusinessTypes w).2 = trace w
  ∧ ((storage.GetBusinessTypes w).1 = Ok businessTypes
     ↔ ∃ rows, (queryContext (inner (engine w)) businessTypesQuery).1 = Ok rows
               ∧ iterationError rows = None
               ∧ Forall2 scannedAs (fetched rows) businessTypes).
Proof.
  rewrite storage_GetBusinessTypes_run. cbn [fst snd engine calls trace].
  split; [reflexivity|]. split; [reflexivity|].
  destruct (queryContext _ _).1 as [rows|err].
  - destruct (storage.scanBusinessTypes (fetched rows) []) as [l|err] eqn:Hscan.
    + destruct (iterationError rows) as [err|] eqn:Herr.
      * split; [done|]. intros (rows' & [= <-] & Hnone & _). congruence.
      * split.
        -- intros [= <-]. exists rows. by rewrite <- scanBusinessTypes_Ok.
        -- intros (rows' & [= <-] & _ & Hall). apply scanBusinessTypes_Ok in Hall. congruence.
    + split; [done|]. intros (rows' & [= <-] & _ & Hall).
      apply scanBusinessTypes_Ok in Hall. congruence.
  - split; [done|]. by intros (rows' & ? & _).
Qed.

(** X21. One row that does not scan fails the whole call: [GetBusinessTypes]
    returns no business types, not even those of the rows before it, but an
    error that wraps the cause of the first failing scan, with a message
    that starts with "failed to scan business type: ". *)
Theorem X21_one_bad_row_fails_all (w : World (Recorded D string)) (rows : Cursor R)
    (good rest : list R) (bad : R) (businessTypes : list BusinessType) (cause : error) :
  (queryContext (inner (engine w)) businessTypesQuery).1 = Ok rows →
  fetched rows = good ++ bad :: rest →
  Forall2 scannedAs good businessTypes →
  scanBusinessType bad = Err cause →
  (storage.GetBusinessTypes w).1
  = Err (wrapError ("failed to scan business type: " +:+ Error cause) cause).
Proof.
  intros Hquery Hrows Hgood Hbad.
  rewrite storage_GetBusinessTypes_run. cbn [fst]. rewrite Hquery, Hrows.
  by rewrite (scanBusinessTypes_first_failure good bad rest businessTypes cause).
Qed.

(** X22. [GetRegions] makes exactly one query, and it succeeds if and only if
    the query succeeds, every row scans and the iteration ends without an
    error; the regions it then returns are the rows, one for one and in
    order, and a region has a parent exactly when the scanned parent column
    was valid (not NULL), whatever number an invalid column carries. *)
Theorem X22_regions_are_the_rows (w : World (Recorded D string)) (regions : list Region_) :
  calls (engine (storage.GetRegions w).2) = calls (engine w) ++ [regionsQuery]
  ∧ trace (storage.GetRegions w).2 = trace w
  ∧ ((storage.GetRegions w).1 = Ok regions
     ↔ ∃ rows, (queryContext (inner (engine w)) regionsQuery).1 = Ok rows
               ∧ iterationError rows = None
               ∧ Forall2 scannedAsRegion (fetched rows) regions).
Proof.
  rewrite storage_GetRegions_run. cbn [fst snd engine calls trace].
  split; [reflexivity|]. split; [reflexivity|].
  destruct (queryContext _ _).1 as [rows|err].
  - destruct (storage.scanRegions (fetched rows) []) as [l|err] eqn:Hscan.
    + destruct (iterationError rows) as [err|] eqn:Herr.
      * split; [done|]. intros (rows' & [= <-] & Hnone & _). congruence.
      * split.
        -- intros [= <-]. exists rows. by rewrite <- scanRegions_Ok.
        -- intros (rows' & [= <-] & _ & Hall). apply scanRegions_Ok in Hall. congruence.
    + split; [done|]. intros (rows' & [= <-] & _ & Hall).
      apply scanRegions_Ok in Hall. congruence.
  - split; [done|]. by intros (rows' & ? & _).
Qed.

End reference_store.

(** ** Properties of the reference data handlers *)

Lemma marshalSlice_Ok {A} (marshal : A → result Value) l vs :
  marshalSlice marshal l = Ok vs ↔ Forall2 (λ a v, marshal a = Ok v) l vs.
Proof.
  revert vs. induction l as [|a l IH]; intros vs; cbn [marshalSlice].
  - split; [intros [= <-]; constructor|by inversion 1].
  - destruct (marshal a) as [v|err] eqn:Ha; cbn [mbind result_bind].
    + destruct (marshalSlice marshal l) as [vs'|err] eqn:Hl; cbn [mbind result_bind].
      * split.
        -- intros [= <-]. constructor; [done|]. by apply IH.
        -- inversion 1 as [|? v' ? vs'' Hv Hrest]; subst. apply IH in Hrest.
           congruence.
      * split; [done|]. inversion 1 as [|? v' ? vs'' Hv Hrest]; subst.
        apply IH in Hrest. congruence.
    + split; [done|]. inversion 1; subst. congruence.
Qed.

Lemma marshalSlice_total {A} (marshal : A → result Value) l :
  Forall (λ a, ∃ v, marshal a = Ok v) l →
  ∃ vs, marshalSlice marshal l = Ok vs.
Proof.
  induction 1 as [|a l [v Hv] _ [vs Hvs]]; [by exists []|].
  exists (v :: vs). cbn [marshalSlice]. by rewrite Hv, Hvs.
Qed.

Lemma marshalRegion_fields region :
  timeInRange (rCreatedAt region) = true →
  timeInRange (rUpdatedAt region) = true →
  ∃ v, marshalRegion region = Ok v
       ∧ field "id" v = Some (VInt (rID region))
       ∧ field "name" v = Some (VString (rName region))
       ∧ field "parent_region_id" v = VInt <$> rParentRegionID region.
Proof.
  intros Hc Hu. unfold marshalRegion. rewrite !marshalTime_inRange by done.
  cbn [mbind result_bind]. eexists. split; [reflexivity|].
  destruct (rParentRegionID region); repeat split; reflexivity.
Qed.

Lemma marshalBusinessType_fields bt :
  timeInRange (btCreatedAt bt) = true →
  timeInRange (btUpdatedAt bt) = true →
  ∃ v, marshalBusinessType bt = Ok v
       ∧ field "id" v = Some (VInt (btID bt))
       ∧ field "name" v = Some (VString (btName bt))
       ∧ field "description" v = Some (VString (btDescription bt)).
Proof.
  intros Hc Hu. unfold marshalBusinessType. rewrite !marshalTime_inRange by done.
  cbn [mbind result_bind]. eexists. split; [reflexivity|]. repeat split; reflexivity.
Qed.

Section reference_handlers.
Context {D R : Type} {db : Database D R}.

Lemma handlers_GetRegions_run h r (w : World (Recorded D string)) :
  handlers.Method r = "GET" →
  handlers.GetRegions h r w
  = let '(res, w') := storage.GetRegions w in
    match res with
    | Err err =>
        (handlers.httpError "Internal server error" 500,
         {| engine := engine w';
            trace := trace w' ++ [Logged ("Error getting regions: " +:+ Error err)] |})
    | Ok regions =>
        match marshalSlice marshalRegion regions with
        | Err err =>
            (handlers.httpError "Internal server error" 500,
             {| engine := engine w';
                trace := trace w' ++ [Logged ("Error encoding response: " +:+ Error err)] |})
        | Ok vs => (handlers.jsonReply (VList vs), w')
        end
    end.
Proof.
  intros Hmethod. unfold handlers.GetRegions.
  rewrite decide_False by (rewrite Hmethod; intros Hx; by apply Hx).
  unfold mbind, io_bind. destruct (storage.GetRegions w) as [res w'].
  destruct res as [regions|err]; [|reflexivity].
  destruct (marshalSlice marshalRegion regions); reflexivity.
Qed.

Lemma handlers_GetBusinessTypes_run h r (w : World (Recorded D string)) :
  handlers.Method r = "GET" →
  handlers.GetBusinessTypes h r w
  = let '(res, w') := storage.GetBusinessTypes w in
    match res with
    | Err err =>
        (handlers.httpError "Internal server error" 500,
         {| engine := engine w';
            trace := trace w' ++ [Logged ("Error getting business types: " +:+ Error err)] |})
    | Ok businessTypes =>
        match marshalSlice marshalBusinessType businessTypes with
        | Err err =>
            (handlers.httpError "Internal server error" 500,
             {| engine := engine w';
                trace := trace w' ++ [Logged ("Error encoding response: " +:+ Error err)] |})
        | Ok vs => (handlers.jsonReply (VList vs), w')
        end
    end.
Proof.
  intros Hmethod. unfold handlers.GetBusinessTypes.
  rewrite decide_False by (rewrite Hmethod; intros Hx; by apply Hx).
  unfold mbind, io_bind. destruct (storage.GetBusinessTypes w) as [res w'].
  destruct res as [businessTypes|err]; [|reflexivity].
  destruct (marshalSlice marshalBusinessType businessTypes); reflexivity.
Qed.

(** X23. When the regions are read, [GetRegions] of the handlers answers
    with a JSON array of as many entries as there are regions, in the same
    order (an empty array for no regions), and nothing is logged.  An entry
    carries the region's [id] and [name], and a [parent_region_id] exactly
    when the region has a parent: a parent of 0 is written as 0, no parent
    is no key. *)
Theorem X23_regions_reply (h : handlers.Handlers) (r : handlers.Request)
    (w : World (Recorded D string)) (regions : list Region_) :
  handlers.Method r = "GET" →
  (storage.GetRegions w).1 = Ok regions →
  Forall (λ region, timeInRange (rCreatedAt region) = true
                    ∧ timeInRange (rUpdatedAt region) = true) regions →
  ∃ vs,
    handlers.GetRegions h r w = (handlers.jsonReply (VList vs), (storage.GetRegions w).2)
    ∧ length vs = length regions
    ∧ ∀ i region, regions !! i = Some region →
        ∃ v, vs !! i = Some v
             ∧ field "id" v = Some (VInt (rID region))
             ∧ field "name" v = Some (VString (rName region))
             ∧ field "parent_region_id" v = VInt <$> rParentRegionID region.
Proof.
  intros Hmethod Hres Htimes.
  rewrite (handlers_GetRegions_run h r w Hmethod).
  destruct (storage.GetRegions w) as [res w']. cbn [fst snd] in Hres |- *. subst res.
  destruct (marshalSlice_total marshalRegion regions) as [vs Hvs].
  { eapply Forall_impl; [exact Htimes|]. intros region [Hc Hu].
    destruct (marshalRegion_fields region Hc Hu) as (v & Hv & _). by exists v. }
  exists vs. rewrite Hvs. split; [reflexivity|].
  apply marshalSlice_Ok in Hvs. split; [symmetry; by eapply Forall2_length|].
  intros i region Hi.
  destruct (Forall2_lookup_l _ _ _ _ _ Hvs Hi) as (v & Hv & Hm).
  exists v. split; [exact Hv|].
  destruct (proj1 (Forall_lookup _ _) Htimes i region Hi) as [Hc Hu].
  destruct (marshalRegion_fields region Hc Hu) as (v' & Hv' & Hfields).
  rewrite Hm in Hv'. by injection Hv' as <-.
Qed.

(** X24. When the business types are read, [GetBusinessTypes] of the
    handlers answers with a JSON array of as many entries as there are
    business types, in the same order (an empty array for none), each with
    the [id], [name] and [description] of its business type, and nothing is
    logged. *)
Theorem X24_business_types_reply (h : handlers.Handlers) (r : handlers.Request)
    (w : World (Recorded D string)) (businessTypes : list BusinessType) :
  handlers.Method r = "GET" →
  (storage.GetBusinessTypes w).1 = Ok businessTypes →
  Forall (λ bt, timeInRange (btCreatedAt bt) = true
                ∧ timeInRange (btUpdatedAt bt) = true) businessTypes →
  ∃ vs,
    handlers.GetBusinessTypes h r w
    = (handlers.jsonReply (VList vs), (storage.GetBusinessTypes w).2)
    ∧ length vs = length businessTypes
    ∧ ∀ i bt, businessTypes !! i = Some bt →
        ∃ v, vs !! i = Some v
             ∧ field "id" v = Some (VInt (btID bt))
             ∧ field "name" v = Some (VString (btName bt))
             ∧ field "description" v = Some (VString (btDescription bt)).
Proof.
  intros Hmethod Hres Htimes.
  rewrite (handlers_GetBusinessTypes_run h r w Hmethod).
  destruct (storage.GetBusinessTypes w) as [res w']. cbn [fst snd] in Hres |- *. subst res.
  destruct (marshalSlice_total marshalBusinessType businessTypes) as [vs Hvs].
  { eapply Forall_impl; [exact Htimes|]. intros bt [Hc Hu].
    destruct (marshalBusinessType_fields bt Hc Hu) as (v & Hv & _). by exists v. }
  exists vs. rewrite Hvs. split; [reflexivity|].
  apply marshalSlice_Ok in Hvs. split; [symmetry; by eapply Forall2_length|].
  intros i bt Hi.
  destruct (Forall2_lookup_l _ _ _ _ _ Hvs Hi) as (v & Hv & Hm).
  exists v. split; [exact Hv|].
  destruct (proj1 (Forall_lookup _ _) Htimes i bt Hi) as [Hc Hu].
  destruct (marshalBusinessType_fields bt Hc Hu) as (v' & Hv' & Hfields).
  rewrite Hm in Hv'. by injection Hv' as <-.
Qed.

(** X25. The reference data handlers query the database only for a GET: any
    other method is answered 405 with the world left as it was.  When the
    read fails (the query, a scan or the iteration), the answer is 500 with
    the fixed text "Internal server error", after the one query and one log
    line that carries the cause. *)
Theorem X25_reference_handlers_failures (h : handlers.Handlers) (r : handlers.Request)
    (w : World (Recorded D string)) :
  (handlers.Method r ≠ "GET" →
   handlers.GetBusinessTypes h r w = (handlers.httpError "Method not allowed" 405, w)
   ∧ handlers.GetRegions h r w = (handlers.httpError "Method not allowed" 405, w))
  ∧ (handlers.Method r = "GET" →
     (∀ err, (storage.GetBusinessTypes w).1 = Err err →
        handlers.GetBusinessTypes h r w
        = (handlers.httpError "Internal server error" 500,
           {| engine := {| inner := (queryContext (inner (engine w)) businessTypesQuery).2;
                           calls := calls (engine w) ++ [businessTypesQuery] |};
              trace := trace w ++ [Logged ("Error getting business types: " +:+ Error err)] |}))
     ∧ (∀ err, (storage.GetRegions w).1 = Err err →
          handlers.GetRegions h r w
          = (handlers.httpError "Internal server error" 500,
             {| engine := {| inner := (queryContext (inner (engine w)) regionsQuery).2;
                             calls := calls (engine w) ++ [regionsQuery] |};
                trace := trace w ++ [Logged ("Error getting regions: " +:+ Error err)] |}))).
Proof.
  split.
  - intros Hm. unfold handlers.GetBusinessTypes, handlers.GetRegions.
    by rewrite !decide_True by exact Hm.
  - intros Hm. split; intros err Herr.
    + rewrite (handlers_GetBusinessTypes_run h r w Hm).
      rewrite storage_GetBusinessTypes_run in Herr |- *. cbn [fst] in Herr.
      by rewrite Herr.
    + rewrite (handlers_GetRegions_run h r w Hm).
      rewrite storage_GetRegions_run in Herr |- *. cbn [fst] in Herr.
      by rewrite Herr.
Qed.

End reference_handlers.

(** ** Instances on the sample data *)

Lemma X1_witness :
  ∃ cause,
    marshalLocation (sampleLocation "loc_1" nan 2 0) = Err cause
    ∧ storage.IndexLocation (net := sampleStore) sampleStorage
        (sampleLocation "loc_1" nan 2 0) (emptyWorld emptyStore)
      = (Some (wrapError ("failed to marshal location: " +:+ Error cause) cause),
         emptyWorld emptyStore).
Proof.
  apply (X1_unmarshallable_location_not_sent (net := sampleStore) sampleStorage
           (sampleLocation "loc_1" nan 2 0) (emptyWorld emptyStore)).
  reflexivity.
Defined.

Lemma X2_witness :
  ∃ doc,
    marshalLocation (sampleLocation "loc_1" 8.5 2 0) = Ok doc
    ∧ trace (storage.IndexLocation (net := sampleStore) sampleStorage
               (sampleLocation "loc_1" 8.5 2 0) (emptyWorld emptyStore)).2
      = [Called (EsIndex "locations" "loc_1" doc "true")].
Proof.
  destruct (X2_index_one_request (net := sampleStore) sampleStorage
              (sampleLocation "loc_1" 8.5 2 0) (emptyWorld emptyStore) eq_refl)
    as (doc & Hdoc & Htrace & _).
  exists doc. split; [exact Hdoc|exact Htrace].
Defined.

Lemma X3_witness :
  let w1 := (storage.IndexLocation (net := sampleStore) sampleStorage
               (sampleLocation "loc_1" 8.5 2 0) (emptyWorld emptyStore)).2 in
  let w2 := (storage.IndexLocation (net := sampleStore) sampleStorage
               (sampleLocation "loc_1" 4 6.5 4.25) w1).2 in
  (storage.GetLocation (net := sampleStore) sampleStorage "loc_1" w2).1
  = Ok (sampleLocation "loc_1" 4 6.5 4.25).
Proof.
  apply (X3_reindex_overwrites sampleStorage acceptAll (sampleLocation "loc_1" 8.5 2 0)
           (sampleLocation "loc_1" 4 6.5 4.25) (emptyWorld emptyStore)
           eq_refl ltac:(discriminate) eq_refl eq_refl eq_refl eq_refl eq_refl eq_refl
           eq_refl).
Defined.


Lemma X6_witness :
  (handlers.GetLocation (net := sampleStore) sampleHandlers (getLocationRequest "loc_404")
     (emptyWorld emptyStore)).1
  = handlers.httpError "Location not found" 404.
Proof.
  apply (proj1 (X6_lookup_answers (net := sampleStore) sampleHandlers
                  (getLocationRequest "loc_404") "loc_404" (emptyWorld emptyStore)
                  eq_refl eq_refl ltac:(discriminate) eq_refl)).
  exists 404, (jsonBody (VMap {[ "found" := VBool false ]})).
  split; [reflexivity|]. by left.
Defined.

Lemma X7_witness :
  ∃ doc,
    marshalLocation (sampleLocation "loc_1" 8.5 2 4.25) = Ok doc
    ∧ (handlers.GetLocation (net := sampleStore) sampleHandlers (getLocationRequest "loc_1")
         (storage.IndexLocation (net := sampleStore) sampleStorage
            (sampleLocation "loc_1" 8.5 2 4.25) (emptyWorld emptyStore)).2).1
      = handlers.jsonReply doc.
Proof.
  apply (X7_indexed_document_served sampleHandlers acceptAll
           (sampleLocation "loc_1" 8.5 2 4.25) (getLocationRequest "loc_1")
           (emptyWorld emptyStore) eq_refl eq_refl ltac:(discriminate) eq_refl eq_refl eq_refl).
Defined.

Lemma X10_witness :
  (handlers.RecommendLocations (net := offline) sampleHandlers (postRecommend 5)
     (emptyWorld ())).1
  = handlers.httpError "Internal server error" 500
  ∧ trace (handlers.RecommendLocations (net := offline) sampleHandlers (postRecommend 5)
             (emptyWorld ())).2
    = [Called (searchCall sampleStorage
                 {| reqRegion := "Moscow"; reqCity := ""; reqBusinessType := "cafe";
                    reqLimit := 5 |});
       Logged ("Error recommending locations: failed to search: "
               +:+ Error connectionRefused)].
Proof.
  apply (proj1 (X10_search_failure_is_500 (net := offline) sampleHandlers (postRecommend 5)
                  {| reqRegion := "Moscow"; reqCity := ""; reqBusinessType := "cafe";
                     reqLimit := 5 |}
                  (emptyWorld ()) eq_refl eq_refl ltac:(discriminate) ltac:(discriminate)
                  eq_refl)
           connectionRefused).
  reflexivity.
Defined.


Lemma X12_witness :
  calls (engine (storage.CreateIndex (ix := indexRegistry) sampleStorage "{}"
                   (freshWorld ∅)).2)
  = [IndicesExists ["locations"]; IndicesCreate "locations" "{}"].
Proof.
  refine (proj1 (proj2 (X12_create_index_requests (ix := indexRegistry) sampleStorage "{}"
                          (freshWorld ∅) 404 {| Raw := ""; Json := None |} ∅ _) _)).
  - vm_compute. reflexivity.
  - discriminate.
Defined.

Lemma X14_witness :
  trace (storage.BulkIndexLocations (net := sampleBulkStore) sampleStorage
           [sampleLocation "loc_1" 8.5 2 0; sampleLocation "loc_2" 4 6.5 0]
           (emptyWorld emptyStore)).2
  = [Called (HttpDo "POST" "http://localhost:9200/_bulk" "application/x-ndjson"
               (Some (VList (bulkPayload "locations"
                               [sampleLocation "loc_1" 8.5 2 0;
                                sampleLocation "loc_2" 4 6.5 0]))))].
Proof.
  apply (X14_bulk_one_request (net := sampleBulkStore) sampleStorage
           [sampleLocation "loc_1" 8.5 2 0; sampleLocation "loc_2" 4 6.5 0]
           (emptyWorld emptyStore)).
  - repeat constructor.
  - reflexivity.
Defined.

Lemma X15_witness :
  ∃ cause,
    storage.BulkIndexLocations (net := sampleBulkStore) sampleStorage
      [sampleLocation "loc_1" 8.5 2 0; sampleLocation "loc_2" infinity 6.5 0]
      (emptyWorld emptyStore)
    = (Some (wrapError ("failed to encode location: " +:+ Error cause) cause),
       emptyWorld emptyStore).
Proof.
  apply (X15_bulk_all_or_nothing (net := sampleBulkStore) sampleStorage
           [sampleLocation "loc_1" 8.5 2 0; sampleLocation "loc_2" infinity 6.5 0]
           (emptyWorld emptyStore)).
  apply Exists_cons_tl, Exists_cons_hd. reflexivity.
Defined.

Lemma X16_witness :
  let '(err, w1) :=
    storage.BulkIndexLocations (net := sampleBulkStore) sampleStorage
      [sampleLocation "loc_1" 8.5 2 0; sampleLocation "loc_2" 4 6.5 4.25]
      (emptyWorld emptyStore) in
  err = None
  ∧ (storage.GetLocation (net := sampleBulkStore) sampleStorage "loc_2" w1).1
    = Ok (sampleLocation "loc_2" 4 6.5 4.25).
Proof.
  apply (X16_bulk_then_get sampleStorage acceptAll
           [sampleLocation "loc_1" 8.5 2 0; sampleLocation "loc_2" 4 6.5 4.25]
           (sampleLocation "loc_2" 4 6.5 4.25) (emptyWorld emptyStore)).
  - repeat constructor.
  - repeat constructor; discriminate.
  - cbn. repeat constructor; set_solver.
  - set_solver.
  - reflexivity.
  - reflexivity.
  - reflexivity.
  - reflexivity.
  - reflexivity.
Defined.

Lemma X19_witness :
  storage.NewElasticsearchStorageWithURL "locations"
    (config.ElasticsearchURL (config.Load ∅))
  = storage.NewElasticsearchStorage "locations".
Proof. apply (X19_default_url_agrees ∅ "locations"). by left. Defined.

Lemma X21_witness :
  (storage.GetBusinessTypes
     (db := tableDB [BusinessTypeRow 1 "cafe" (Some "Cafe") 0 0;
                     BusinessTypeRow 2 "gym" None 0 0;
                     BusinessTypeRow 3 "pharmacy" (Some "Pharmacy") 0 0] [])
     (freshWorld ())).1
  = Err (wrapError
           ("failed to scan business type: "
            +:+ "sql: Scan error on column index 2: converting NULL to string is unsupported")
           (errorString
              "sql: Scan error on column index 2: converting NULL to string is unsupported")).
Proof.
  apply (X21_one_bad_row_fails_all
           (db := tableDB [BusinessTypeRow 1 "cafe" (Some "Cafe") 0 0;
                           BusinessTypeRow 2 "gym" None 0 0;
                           BusinessTypeRow 3 "pharmacy" (Some "Pharmacy") 0 0] [])
           (freshWorld ())
           {| fetched := [BusinessTypeRow 1 "cafe" (Some "Cafe") 0 0;
                          BusinessTypeRow 2 "gym" None 0 0;
                          BusinessTypeRow 3 "pharmacy" (Some "Pharmacy") 0 0];
              iterationError := None |}
           [BusinessTypeRow 1 "cafe" (Some "Cafe") 0 0]
           [BusinessTypeRow 3 "pharmacy" (Some "Pharmacy") 0 0]
           (BusinessTypeRow 2 "gym" None 0 0)
           [{| btID := 1; btName := "cafe"; btDescription := "Cafe";
               btCreatedAt := 0; btUpdatedAt := 0 |}]
           (errorString
              "sql: Scan error on column index 2: converting NULL to string is unsupported")).
  - reflexivity.
  - reflexivity.
  - repeat constructor.
  - reflexivity.
Defined.

Lemma X23_witness :
  ∃ moscow russia,
    (handlers.GetRegions (db := sampleDB) sampleHandlers getRequest (freshWorld ())).1
    = handlers.jsonReply (VList [moscow; russia])
    ∧ field "parent_region_id" moscow = Some (VInt 1)
    ∧ field "parent_region_id" russia = None.
Proof.
  destruct (X23_regions_reply (db := sampleDB) sampleHandlers getRequest (freshWorld ())
              [ {| rID := 5; rName := "Moscow"; rParentRegionID := Some 1;
                   rCreatedAt := 1700000000000000000; rUpdatedAt := 1700000000000000000 |};
                {| rID := 1; rName := "Russia"; rParentRegionID := None;
                   rCreatedAt := 1700000000000000000; rUpdatedAt := 1700000000000000000 |} ]
              eq_refl eq_refl)
    as (vs & Hreply & Hlen & Hentries).
  - repeat constructor.
  - destruct vs as [|moscow [|russia [|? ?]]]; try discriminate Hlen.
    exists moscow, russia. split; [by rewrite Hreply|].
    destruct (Hentries 0%nat _ eq_refl) as (v0 & [= <-] & _ & _ & Hp0).
    destruct (Hentries 1%nat _ eq_refl) as (v1 & [= <-] & _ & _ & Hp1).
    by split.
Defined.

Lemma X24_witness :
  ∃ vs,
    (handlers.GetBusinessTypes (db := sampleDB) sampleHandlers getRequest (freshWorld ())).1
    = handlers.jsonReply (VList vs)
    ∧ length vs = 2%nat.
Proof.
  destruct (X24_business_types_reply (db := sampleDB) sampleHandlers getRequest
              (freshWorld ())
              [ {| btID := 5; btName := "barbershop"; btDescription := "Barbershop";
                   btCreatedAt := 1700000000000000000; btUpdatedAt := 1700000000000000000 |};
                {| btID := 1; btName := "cafe"; btDescription := "Cafe";
                   btCreatedAt := 1700000000000000000; btUpdatedAt := 1700000000000000000 |} ]
              eq_refl eq_refl)
    as (vs & Hreply & Hlen & _).
  - repeat constructor.
  - exists vs. split; [by rewrite Hreply|exact Hlen].
Defined.
